(** * Scenario playback engine of the simulation page (static/js/simulation.js)

    A shallow embedding of the playback machinery of [simulation.js]: the
    scenario catalog, the event log and defense table, the topology graph
    held by the vis.js network instance, the timers armed by [setTimeout]
    and [setInterval], and the results modal.

    Conventions.
    - JavaScript strings are [string]s; all literals of the source are
      ASCII, and on ASCII needles byte-wise substring search agrees with
      [String.prototype.includes].
    - The DOM elements the script looks up ([simulation-log],
      [defense-table] and its [tbody], [event-counter], the two buttons,
      [network-visualization], the three selects and the results modal) are
      all declared by templates/simulation.html, so the [if (!el) return]
      guards of the source never fire and are not modelled.
    - A timer callback is a constructor of [Callback] carrying the variables
      its closure captured; the table of pending timers is part of the page
      state. *)

From Stdlib Require Import String Ascii List ZArith Bool Arith Lia.
Import ListNotations.
Open Scope string_scope.
Open Scope list_scope.

Set Implicit Arguments.

(** ** Strings *)

Module Js.

(** [hay.includes(needle)] *)
Fixpoint includes (hay needle : string) : bool :=
  if String.prefix needle hay then true
  else match hay with
       | EmptyString => false
       | String _ rest => includes rest needle
       end.

(** [c.toUpperCase()] on the ASCII range. *)
Definition upper_ascii (c : ascii) : ascii :=
  let n := nat_of_ascii c in
  if (Nat.leb 97 n && Nat.leb n 122)%bool then ascii_of_nat (n - 32) else c.

Fixpoint toUpperCase (s : string) : string :=
  match s with
  | EmptyString => EmptyString
  | String c rest => String (upper_ascii c) (toUpperCase rest)
  end.

(** [s.split(sep)] for a one-character separator; [acc] is the piece
    being read. *)
Fixpoint split_aux (sep : ascii) (acc s : string) : list string :=
  match s with
  | EmptyString => [acc]
  | String c rest =>
      if Ascii.eqb c sep then acc :: split_aux sep EmptyString rest
      else split_aux sep (acc ++ String c EmptyString)%string rest
  end.

Definition split (sep : ascii) (s : string) : list string :=
  split_aux sep EmptyString s.

(** [words.join(sep)] *)
Fixpoint join (sep : string) (words : list string) : string :=
  match words with
  | [] => EmptyString
  | [w] => w
  | w :: rest => (w ++ sep ++ join sep rest)%string
  end.

(** Truthiness of an optional string property: [undefined] and the empty
    string are falsy. *)
Definition truthy (o : option string) : bool :=
  match o with
  | Some EmptyString => false
  | Some _ => true
  | None => false
  end.

(** A template literal prints a missing property as [undefined]. *)
Definition render (o : option string) : string :=
  match o with
  | Some s => s
  | None => "undefined"
  end.

End Js.

(** ** Scenario scripts *)

(** An event object literal of [getScenarioEvents]. *)
Record Event := mkEvent {
  time : string;
  type : string;
  message : string;
  defense : option string;
  effectiveness : option string
}.

Definition ev (t ty msg : string) : Event :=
  mkEvent t ty msg None None.

Definition dev (t msg d e : string) : Event :=
  mkEvent t "defense" msg (Some d) (Some e).

Definition ransomware_events : list Event :=
  [ ev  "00:00" "attack" "Initial access attempt detected via phishing email with malicious attachment";
    dev "00:05" "Email filtering identified suspicious attachment pattern" "Email scanning" "Medium";
    ev  "00:10" "attack" "User opened malicious attachment on Workstation 2";
    ev  "00:12" "attack" "Malware establishes connection to command and control server";
    dev "00:15" "Unusual network connection attempt detected" "Network monitoring" "High";
    dev "00:18" "Connection to known malicious IP blocked" "Firewall rule" "High";
    ev  "00:25" "attack" "Malware attempting to escalate privileges on Workstation 2";
    ev  "00:30" "attack" "Lateral movement attempt detected from Workstation 2 to Admin machine";
    dev "00:35" "Lateral movement partially blocked" "Network segmentation" "Medium";
    ev  "00:40" "attack" "Ransomware payload trying to access file shares";
    dev "00:42" "Abnormal file access pattern detected" "Behavior analysis" "High";
    dev "00:45" "File encryption attempt blocked on network shares" "Access control" "High";
    ev  "00:50" "attack" "Encryption of local files in progress on Workstation 2";
    dev "00:55" "Process terminated based on behavior pattern" "Endpoint protection" "Medium";
    ev  "01:00" "network" "Isolating Workstation 2 from network to prevent further spread";
    dev "01:05" "System restoration from backup initiated for Workstation 2" "Recovery protocol" "High" ].

Definition ddos_events : list Event :=
  [ ev  "00:00" "network" "Unusual increase in traffic detected on external interfaces";
    ev  "00:05" "attack" "Potential DDoS attack starting - SYN flood pattern detected";
    dev "00:08" "Rate limiting applied to suspicious traffic sources" "Traffic shaping" "Medium";
    ev  "00:12" "attack" "Attack ramping up - multiple attack vectors detected";
    ev  "00:15" "network" "Web servers experiencing increased load";
    dev "00:18" "Traffic analysis identifies botnet sources" "Threat intelligence" "High";
    ev  "00:22" "attack" "Layer 7 attack targeting authentication endpoints";
    dev "00:25" "Web application firewall rules updated" "WAF rules" "High";
    ev  "00:30" "network" "Activating additional capacity to absorb attack";
    dev "00:35" "DDoS mitigation service engaged" "Cloud mitigation" "High";
    ev  "00:40" "attack" "Attack shifting to DNS amplification";
    dev "00:45" "DNS filtering implemented" "DNS protection" "Medium";
    ev  "00:50" "network" "Traffic levels beginning to normalize";
    dev "00:55" "Blocking traffic from 150 identified attack sources" "IP blocking" "High";
    ev  "01:00" "network" "Service availability restored to normal levels";
    dev "01:05" "Post-attack analysis and rule optimization initiated" "Forensics" "High" ].

Definition data_exfiltration_events : list Event :=
  [ ev  "00:00" "attack" "Suspicious login detected from unusual location";
    dev "00:05" "Multi-factor authentication challenge issued" "MFA" "High";
    ev  "00:10" "attack" "Authentication bypass attempt detected";
    ev  "00:15" "attack" "Privilege escalation observed via service account compromise";
    dev "00:20" "Unusual account behavior detected" "Behavior monitoring" "Medium";
    ev  "00:25" "attack" "Database query with excessive data retrieval executed";
    dev "00:30" "Database activity monitoring alert triggered" "DAM" "High";
    ev  "00:35" "attack" "Data staging observed in temporary directory";
    ev  "00:40" "network" "Unusual outbound connection established to unknown external IP";
    dev "00:45" "Data Loss Prevention system blocked file transfer" "DLP" "High";
    ev  "00:50" "attack" "Attempt to compress and encrypt sensitive data detected";
    dev "00:55" "File integrity monitoring alert triggered" "FIM" "Medium";
    ev  "01:00" "network" "Suspicious DNS queries detected - potential covert channel";
    dev "01:05" "DNS exfiltration blocked via pattern matching" "DNS filters" "High";
    dev "01:10" "Account access revoked and investigation initiated" "Access control" "High";
    dev "01:15" "Security team performed isolation of affected systems" "Containment" "High" ].

Definition default_events : list Event :=
  [ ev  "00:00" "attack" "Initial access attempt detected via phishing email with malicious attachment";
    dev "00:05" "Email filtering identified suspicious attachment pattern" "Email scanning" "Medium";
    ev  "00:10" "attack" "User opened malicious attachment on Workstation 2";
    dev "00:15" "Endpoint protection blocked initial execution" "Endpoint protection" "High" ].

(** [getScenarioEvents(scenario)]: a [switch] on the key with a [default]
    branch. *)
Definition getScenarioEvents (scenario : string) : list Event :=
  if String.eqb scenario "ransomware" then ransomware_events
  else if String.eqb scenario "ddos" then ddos_events
  else if String.eqb scenario "data_exfiltration" then data_exfiltration_events
  else default_events.

(** [determineAttackVector(message)] *)
Definition determineAttackVector (message : string) : string :=
  if Js.includes message "phishing" then "Phishing"
  else if Js.includes message "malicious attachment" then "Malicious Attachment"
  else if Js.includes message "command and control" then "C2 Communication"
  else if Js.includes message "escalate privileges" then "Privilege Escalation"
  else if Js.includes message "lateral movement" then "Lateral Movement"
  else if Js.includes message "file access" then "Unauthorized Access"
  else if Js.includes message "encryption" then "Encryption"
  else if Js.includes message "DDoS" then "DDoS"
  else if Js.includes message "SQL" then "SQL Injection"
  else if Js.includes message "exfiltration" then "Data Exfiltration"
  else "Unknown".

(** [formatScenarioName(scenarioId)] *)
Definition capitalize (word : string) : string :=
  match word with
  | EmptyString => EmptyString
  | String c rest => String (Js.upper_ascii c) rest
  end.

Definition formatScenarioName (scenarioId : string) : string :=
  match scenarioId with
  | EmptyString => "Unknown"
  | _ => Js.join " " (map capitalize (Js.split "_" scenarioId))
  end.

(** ** Topology graph

    The two [vis.DataSet]s of [initNetworkVisualization].  A data set keeps
    its items in insertion order ([forEach] and [get()] follow it) and
    [update] merges the properties of a patch into the item with the same
    id, property by property at top level, or adds the patch as a new item
    when the id is unknown. *)

Record NodeColor := mkNodeColor {
  background : string;
  border : string
}.

Record Icon := mkIcon {
  face : string;
  code : string;
  icon_color : string
}.

Record Node := mkNode {
  node_id : nat;
  node_label : option string;
  node_shape : option string;
  node_color : option NodeColor;
  node_icon : option Icon
}.

(** The object found under the [color] property of an edge.  The source
    nests [dashes], [width] and [arrows] inside it in two places
    (simulateRansomwareAttack step 5 and [dataFlowStyle]). *)
Record EdgeColor := mkEdgeColor {
  ec_color : string;
  ec_dashes : option (list nat);
  ec_width : option nat;
  ec_arrows_to : option bool
}.

(** The top-level [dashes] property: [false] or a dash pattern. *)
Inductive Dashes :=
| DashesFalse
| DashesPattern (pattern : list nat).

(** Edges are created without an id and vis.js generates one; the id of
    the k-th edge created is modelled by the number k. *)
Record Edge := mkEdge {
  edge_id : nat;
  edge_from : option nat;
  edge_to : option nat;
  edge_color : option EdgeColor;
  edge_dashes : option Dashes;
  edge_width : option nat
}.

Record Network := mkNetwork {
  nodes : list Node;
  edges : list Edge
}.

Definition plain (c : string) : EdgeColor := mkEdgeColor c None None None.

Definition green : NodeColor := mkNodeColor "#198754" "#146c43".
Definition blue : NodeColor := mkNodeColor "#0d6efd" "#0a58ca".
Definition compromisedStyle : NodeColor := mkNodeColor "#dc3545" "#b02a37".
Definition atRiskStyle : NodeColor := mkNodeColor "#fd7e14" "#ca6510".
Definition underAttackStyle : NodeColor := mkNodeColor "#fd7e14" "#ca6510".
Definition dataFlowStyle : EdgeColor :=
  mkEdgeColor "#fd7e14" None (Some 3) (Some true).

Definition initial_nodes : list Node :=
  [ mkNode 1 (Some "Internet") (Some "cloud") (Some (mkNodeColor "#6c757d" "#495057")) None;
    mkNode 2 (Some "Firewall") (Some "box") (Some blue) None;
    mkNode 3 (Some "Web Server") (Some "server") (Some green) None;
    mkNode 4 (Some "App Server") (Some "server") (Some green) None;
    mkNode 5 (Some "Database") (Some "database") (Some green) None;
    mkNode 6 (Some "Admin") (Some "icon") None (Some (mkIcon "FontAwesome" "\uf007" "#0dcaf0"));
    mkNode 7 (Some "Workstation 1") (Some "desktop") (Some green) None;
    mkNode 8 (Some "Workstation 2") (Some "desktop") (Some green) None ].

(** The icon code of the Admin node is kept in the source's spelling, the
    escape [\uf007]. *)

Definition new_edge (k from to : nat) : Edge :=
  mkEdge k (Some from) (Some to) None None None.

Definition initial_edges : list Edge :=
  [ new_edge 0 1 2; new_edge 1 2 3; new_edge 2 2 4; new_edge 3 3 5;
    new_edge 4 4 5; new_edge 5 2 6; new_edge 6 6 7; new_edge 7 6 8 ].

(** The data handed to [new vis.Network] at engine initialization. *)
Definition initial_network : Network := mkNetwork initial_nodes initial_edges.

(** A node patch [{ id, color }]: the only shape of node update in the
    source. *)
Record NodePatch := mkNodePatch {
  np_id : nat;
  np_color : NodeColor
}.

(** An edge patch [{ id, color?, dashes?, width? }]. *)
Record EdgePatch := mkEdgePatch {
  ep_id : nat;
  ep_color : option EdgeColor;
  ep_dashes : option Dashes;
  ep_width : option nat
}.

Definition merge {A : Type} (new old : option A) : option A :=
  match new with
  | Some _ => new
  | None => old
  end.

Definition patch_node (p : NodePatch) (n : Node) : Node :=
  if Nat.eqb (node_id n) (np_id p)
  then mkNode (node_id n) (node_label n) (node_shape n) (Some (np_color p)) (node_icon n)
  else n.

Definition patch_edge (p : EdgePatch) (e : Edge) : Edge :=
  if Nat.eqb (edge_id e) (ep_id p)
  then mkEdge (edge_id e) (edge_from e) (edge_to e)
         (merge (ep_color p) (edge_color e))
         (merge (ep_dashes p) (edge_dashes e))
         (merge (ep_width p) (edge_width e))
  else e.

(** [nodes.update(patch)] *)
Definition nodes_update (p : NodePatch) (ns : list Node) : list Node :=
  if existsb (fun n => Nat.eqb (node_id n) (np_id p)) ns
  then map (patch_node p) ns
  else ns ++ [mkNode (np_id p) None None (Some (np_color p)) None].

(** [edges.update(patch)] *)
Definition edges_update (p : EdgePatch) (es : list Edge) : list Edge :=
  if existsb (fun e => Nat.eqb (edge_id e) (ep_id p)) es
  then map (patch_edge p) es
  else es ++ [mkEdge (ep_id p) None None (ep_color p) (ep_dashes p) (ep_width p)].

(** [resetNetworkVisualization()] on an existing network instance: the
    [forEach] over the nodes skips ids 1 and 2 and recolours by shape, the
    [forEach] over the edges sets [color] and [dashes]. *)
Definition shape_is (n : Node) (s : string) : bool :=
  match node_shape n with
  | Some s' => String.eqb s' s
  | None => false
  end.

Definition reset_node (ns : list Node) (n : Node) : list Node :=
  if negb (Nat.eqb (node_id n) 1) && negb (Nat.eqb (node_id n) 2) then
    if shape_is n "server" || shape_is n "desktop" || shape_is n "database"
    then nodes_update (mkNodePatch (node_id n) green) ns
    else if shape_is n "icon"
    then nodes_update (mkNodePatch (node_id n) (mkNodeColor "#ffffff" "#0dcaf0")) ns
    else ns
  else ns.

Definition reset_edge (es : list Edge) (e : Edge) : list Edge :=
  edges_update
    (mkEdgePatch (edge_id e) (Some (plain "#495057")) (Some DashesFalse) None) es.

Definition resetNetwork (g : Network) : Network :=
  mkNetwork (fold_left reset_node (nodes g) (nodes g))
            (fold_left reset_edge (edges g) (edges g)).

(** *** Scenario transition scripts

    Each [setTimeout] callback of the [simulate...] functions is a list of
    statements; an edge is addressed through its position in
    [edges.get()]. *)

(** An element [{ id: edges.get()[k].id, ... }] of an [edges.update]
    argument. *)
Record EdgeRef := mkEdgeRef {
  er_index : nat;
  er_color : option EdgeColor;
  er_dashes : option Dashes;
  er_width : option nat
}.

Inductive Statement :=
| NodesUpdate (patches : list NodePatch)
| EdgesUpdate (refs : list EdgeRef).

(** Evaluation of the argument array of [edges.update]: reading [.id] of a
    missing [edges.get()[k]] throws, which is [None] here. *)
Fixpoint resolve (es : list Edge) (refs : list EdgeRef) : option (list EdgePatch) :=
  match refs with
  | [] => Some []
  | r :: rest =>
      match nth_error es (er_index r), resolve es rest with
      | Some e, Some ps =>
          Some (mkEdgePatch (edge_id e) (er_color r) (er_dashes r) (er_width r) :: ps)
      | _, _ => None
      end
  end.

Definition exec_statement (st : Statement) (g : Network) : option Network :=
  match st with
  | NodesUpdate ps =>
      Some (mkNetwork (fold_left (fun ns p => nodes_update p ns) ps (nodes g)) (edges g))
  | EdgesUpdate refs =>
      match resolve (edges g) refs with
      | Some ps =>
          Some (mkNetwork (nodes g) (fold_left (fun es p => edges_update p es) ps (edges g)))
      | None => None
      end
  end.

(** A callback body runs its statements in order; an exception ends the
    callback and keeps what was done before it. *)
Fixpoint exec_body (body : list Statement) (g : Network) : Network :=
  match body with
  | [] => g
  | st :: rest =>
      match exec_statement st g with
      | Some g' => exec_body rest g'
      | None => g
      end
  end.

Definition node (k : nat) (c : NodeColor) : NodePatch := mkNodePatch k c.
Definition edge_colored (k : nat) (c : EdgeColor) : EdgeRef :=
  mkEdgeRef k (Some c) None None.

(** [simulateRansomwareAttack]: delay in milliseconds and callback body. *)
Definition ransomware_transitions : list (N * list Statement) :=
  [ (2000%N,  [NodesUpdate [node 8 compromisedStyle]]);
    (6000%N,  [EdgesUpdate [edge_colored 6 (plain "#dc3545")];
             NodesUpdate [node 6 atRiskStyle]]);
    (9000%N,  [NodesUpdate [node 6 compromisedStyle];
             NodesUpdate [node 7 atRiskStyle]]);
    (12000%N, [EdgesUpdate [edge_colored 2 (plain "#fd7e14");
                          edge_colored 3 (plain "#fd7e14")];
             NodesUpdate [node 3 atRiskStyle; node 4 atRiskStyle]]);
    (15000%N, [EdgesUpdate [edge_colored 6 (mkEdgeColor "#495057" (Some [5; 5]) None None)]]);
    (18000%N, [NodesUpdate [node 3 green; node 4 green];
             EdgesUpdate [edge_colored 2 (plain "#495057");
                          edge_colored 3 (plain "#495057")]]) ].

(** [simulateDDoSAttack] *)
Definition ddos_transitions : list (N * list Statement) :=
  [ (2000%N,  [NodesUpdate [node 1 (mkNodeColor "#dc3545" "#b02a37")];
             EdgesUpdate [edge_colored 0 (plain "#dc3545")]]);
    (4000%N,  [NodesUpdate [node 2 underAttackStyle]]);
    (6000%N,  [NodesUpdate [node 3 underAttackStyle];
             EdgesUpdate [edge_colored 1 (plain "#dc3545")]]);
    (9000%N,  [EdgesUpdate [mkEdgeRef 0 None None (Some 6)]]);
    (12000%N, [NodesUpdate [node 2 blue];
             EdgesUpdate [mkEdgeRef 0 (Some (plain "#0d6efd")) None (Some 2)]]);
    (15000%N, [NodesUpdate [node 3 green];
             EdgesUpdate [edge_colored 1 (plain "#495057")]]) ].

(** [simulateDataExfiltration] *)
Definition data_exfiltration_transitions : list (N * list Statement) :=
  [ (2000%N,  [NodesUpdate [node 7 compromisedStyle]]);
    (5000%N,  [EdgesUpdate [edge_colored 5 dataFlowStyle];
             NodesUpdate [node 6 compromisedStyle]]);
    (8000%N,  [EdgesUpdate [edge_colored 3 dataFlowStyle];
             NodesUpdate [node 4 compromisedStyle]]);
    (11000%N, [EdgesUpdate [edge_colored 4 dataFlowStyle];
             NodesUpdate [node 5 compromisedStyle]]);
    (14000%N, [EdgesUpdate [edge_colored 2 dataFlowStyle;
                          edge_colored 1 dataFlowStyle;
                          edge_colored 0 dataFlowStyle]]);
    (17000%N, [EdgesUpdate [mkEdgeRef 0 (Some (plain "#495057")) (Some (DashesPattern [5; 5])) None];
             NodesUpdate [node 2 blue]]) ].

(** [simulateGenericAttack] *)
Definition generic_transitions : list (N * list Statement) :=
  [ (3000%N, [NodesUpdate [node 8 (mkNodeColor "#dc3545" "#b02a37")]]);
    (6000%N, [NodesUpdate [node 2 blue]]);
    (9000%N, [NodesUpdate [node 8 green]]) ].

(** The [switch] of [updateNetworkForScenario]. *)
Definition scenario_transitions (scenario : string) : list (N * list Statement) :=
  if String.eqb scenario "ransomware" then ransomware_transitions
  else if String.eqb scenario "ddos" then ddos_transitions
  else if String.eqb scenario "data_exfiltration" then data_exfiltration_transitions
  else generic_transitions.

(** ** Scores of the results modal

    [Math.random()] returns a double in the interval from 0 (included) to
    1 (excluded).  Every such double is an integer multiple of 2^-1074, so
    it is represented by the integer [k] with value [k * 2^-1074], and so is
    the product with a small integer constant, which is then rounded to 53
    significant bits, ties to even, as the double multiplication does. *)

Module Float64.

Definition precision : Z := 53.
Definition unit_exponent : Z := 1074.

(** Round a non-negative integer to [precision] significant bits, to
    nearest, ties to even. *)
Definition round (m : Z) : Z :=
  let b := Z.log2 m in
  if (b <? precision)%Z then m
  else
    let s := (b - (precision - 1))%Z in
    let q := Z.shiftr m s in
    let r := Z.land m (Z.ones s) in
    let half := Z.shiftl 1 (s - 1) in
    let up := (half <? r)%Z || ((r =? half)%Z && Z.odd q) in
    Z.shiftl (if up then q + 1 else q)%Z s.

(** [x * c] for the double [x = k * 2^-1074] and an integer constant
    [c], in the same unit. *)
Definition mul (k c : Z) : Z := round (k * c).

(** [Math.floor(x)] for [x = m * 2^-1074], as an integer. *)
Definition floor (m : Z) : Z := Z.shiftr m unit_exponent.

(** The values [Math.random()] can return. *)
Definition is_random (k : Z) : Prop := (0 <= k < 2 ^ unit_exponent)%Z.

End Float64.

(** [Math.floor(Math.random() * 30) + 65] *)
Definition defenseScore (r : Z) : Z :=
  (Float64.floor (Float64.mul r 30) + 65)%Z.

(** [Math.floor(Math.random() * 50) + 20] *)
Definition attackScore (r : Z) : Z :=
  (Float64.floor (Float64.mul r 50) + 20)%Z.

(** The same two scores in exact arithmetic, without the rounding of the
    product: floor(r*30)+65 and floor(r*50)+20 for the real number
    r = k * 2^-1074. *)
Definition defenseScore_exact (r : Z) : Z :=
  (r * 30 / 2 ^ Float64.unit_exponent + 65)%Z.

Definition attackScore_exact (r : Z) : Z :=
  (r * 50 / 2 ^ Float64.unit_exponent + 20)%Z.

(** What [showSimulationResults] writes into the results modal. *)
Record Report := mkReport {
  result_scenario_name : string;
  result_duration : string;
  result_defense_score : Z;
  result_attack_score : Z
}.

(** ** Page state *)

(** The [innerHTML] values the script gives the start button: the template's
    and [resetSimulation]'s [Start Simulation], the spinner [Starting...],
    [Pause Simulation], [Resume Simulation] and [Start New Simulation]. *)
Inductive StartLabel :=
| StartSimulationLabel
| StartingLabel
| PauseSimulationLabel
| ResumeSimulationLabel
| StartNewSimulationLabel.

(** Children of [#simulation-log]: the placeholder block or an
    [event-item] with the time, the class and upper-cased type of the
    second span, and the message. *)
Inductive LogChild :=
| LogPlaceholder
| EventItem (item_time typeClass item_type item_message : string).

(** Rows of the defense table body: the placeholder row (the one with a
    [td colspan=4]) or a row with time, attack vector, defense action, badge
    class and effectiveness. *)
Inductive TableRow :=
| RowPlaceholder
| DefenseRow (row_time vector action badgeClass row_effectiveness : string).

(** An argument triple of [showToast]. *)
Record Toast := mkToast {
  toast_message : string;
  toast_title : string;
  toast_type : string
}.

(** An [option] element of a select: value and text. *)
Record SelectOption := mkOption {
  value : string;
  text : string
}.

(** Timer callbacks with their captured variables. *)
Inductive Callback :=
| StartTimeout (scenario difficulty : string) (targets : list string)
| IntervalTick (events : list Event) (eventCount i : nat)
| CompletionTimeout
| GraphTimeout (body : list Statement).

Record Timer := mkTimer {
  timer_id : nat;
  delay : N;
  callback : Callback
}.

Record Page := mkPage {
  networkInstance : option Network;
  simulationRunning : bool;
  start_label : StartLabel;
  start_disabled : bool;
  reset_disabled : bool;
  scenario_select : SelectOption;
  difficulty_select : string;
  target_select : list (string * bool);
  simulation_log : list LogChild;
  defense_tbody : list TableRow;
  event_counter : nat;
  toasts : list Toast;
  reports : list Report;
  timers : list Timer;
  next_timer : nat
}.

(** Assignment to one field. *)
Definition set_networkInstance (v : option Network) (s : Page) : Page :=
  mkPage v (simulationRunning s) (start_label s) (start_disabled s) (reset_disabled s) (scenario_select s) (difficulty_select s) (target_select s) (simulation_log s) (defense_tbody s) (event_counter s) (toasts s) (reports s) (timers s) (next_timer s).
Definition set_simulationRunning (v : bool) (s : Page) : Page :=
  mkPage (networkInstance s) v (start_label s) (start_disabled s) (reset_disabled s) (scenario_select s) (difficulty_select s) (target_select s) (simulation_log s) (defense_tbody s) (event_counter s) (toasts s) (reports s) (timers s) (next_timer s).
Definition set_start_label (v : StartLabel) (s : Page) : Page :=
  mkPage (networkInstance s) (simulationRunning s) v (start_disabled s) (reset_disabled s) (scenario_select s) (difficulty_select s) (target_select s) (simulation_log s) (defense_tbody s) (event_counter s) (toasts s) (reports s) (timers s) (next_timer s).
Definition set_start_disabled (v : bool) (s : Page) : Page :=
  mkPage (networkInstance s) (simulationRunning s) (start_label s) v (reset_disabled s) (scenario_select s) (difficulty_select s) (target_select s) (simulation_log s) (defense_tbody s) (event_counter s) (toasts s) (reports s) (timers s) (next_timer s).
Definition set_reset_disabled (v : bool) (s : Page) : Page :=
  mkPage (networkInstance s) (simulationRunning s) (start_label s) (start_disabled s) v (scenario_select s) (difficulty_select s) (target_select s) (simulation_log s) (defense_tbody s) (event_counter s) (toasts s) (reports s) (timers s) (next_timer s).
Definition set_scenario_select (v : SelectOption) (s : Page) : Page :=
  mkPage (networkInstance s) (simulationRunning s) (start_label s) (start_disabled s) (reset_disabled s) v (difficulty_select s) (target_select s) (simulation_log s) (defense_tbody s) (event_counter s) (toasts s) (reports s) (timers s) (next_timer s).
Definition set_difficulty_select (v : string) (s : Page) : Page :=
  mkPage (networkInstance s) (simulationRunning s) (start_label s) (start_disabled s) (reset_disabled s) (scenario_select s) v (target_select s) (simulation_log s) (defense_tbody s) (event_counter s) (toasts s) (reports s) (timers s) (next_timer s).
Definition set_target_select (v : list (string * bool)) (s : Page) : Page :=
  mkPage (networkInstance s) (simulationRunning s) (start_label s) (start_disabled s) (reset_disabled s) (scenario_select s) (difficulty_select s) v (simulation_log s) (defense_tbody s) (event_counter s) (toasts s) (reports s) (timers s) (next_timer s).
Definition set_simulation_log (v : list LogChild) (s : Page) : Page :=
  mkPage (networkInstance s) (simulationRunning s) (start_label s) (start_disabled s) (reset_disabled s) (scenario_select s) (difficulty_select s) (target_select s) v (defense_tbody s) (event_counter s) (toasts s) (reports s) (timers s) (next_timer s).
Definition set_defense_tbody (v : list TableRow) (s : Page) : Page :=
  mkPage (networkInstance s) (simulationRunning s) (start_label s) (start_disabled s) (reset_disabled s) (scenario_select s) (difficulty_select s) (target_select s) (simulation_log s) v (event_counter s) (toasts s) (reports s) (timers s) (next_timer s).
Definition set_event_counter (v : nat) (s : Page) : Page :=
  mkPage (networkInstance s) (simulationRunning s) (start_label s) (start_disabled s) (reset_disabled s) (scenario_select s) (difficulty_select s) (target_select s) (simulation_log s) (defense_tbody s) v (toasts s) (reports s) (timers s) (next_timer s).
Definition set_toasts (v : list Toast) (s : Page) : Page :=
  mkPage (networkInstance s) (simulationRunning s) (start_label s) (start_disabled s) (reset_disabled s) (scenario_select s) (difficulty_select s) (target_select s) (simulation_log s) (defense_tbody s) (event_counter s) v (reports s) (timers s) (next_timer s).
Definition set_reports (v : list Report) (s : Page) : Page :=
  mkPage (networkInstance s) (simulationRunning s) (start_label s) (start_disabled s) (reset_disabled s) (scenario_select s) (difficulty_select s) (target_select s) (simulation_log s) (defense_tbody s) (event_counter s) (toasts s) v (timers s) (next_timer s).
Definition set_timers (v : list Timer) (s : Page) : Page :=
  mkPage (networkInstance s) (simulationRunning s) (start_label s) (start_disabled s) (reset_disabled s) (scenario_select s) (difficulty_select s) (target_select s) (simulation_log s) (defense_tbody s) (event_counter s) (toasts s) (reports s) v (next_timer s).
Definition set_next_timer (v : nat) (s : Page) : Page :=
  mkPage (networkInstance s) (simulationRunning s) (start_label s) (start_disabled s) (reset_disabled s) (scenario_select s) (difficulty_select s) (target_select s) (simulation_log s) (defense_tbody s) (event_counter s) (toasts s) (reports s) (timers s) v.

(** ** Operations of simulation.js *)

Definition showToast (message title type : string) (s : Page) : Page :=
  set_toasts (toasts s ++ [mkToast message title type]) s.

(** [setTimeout] and [setInterval] hand out fresh ids from one counter. *)
Definition setTimer (cb : Callback) (ms : N) (s : Page) : Page :=
  set_next_timer (S (next_timer s))
    (set_timers (timers s ++ [mkTimer (next_timer s) ms cb]) s).

(** [clearInterval(id)]; also what the browser does with a timeout once it
    has fired. *)
Definition remove_id (id : nat) (ts : list Timer) : list Timer :=
  filter (fun t => negb (Nat.eqb (timer_id t) id)) ts.

Definition clearTimer (id : nat) (s : Page) : Page :=
  set_timers (remove_id id (timers s)) s.

(** The captured variables of a pending callback after it has assigned to
    them. *)
Definition replace_callback (id : nat) (cb : Callback) (ts : list Timer) : list Timer :=
  map (fun t => if Nat.eqb (timer_id t) id then mkTimer id (delay t) cb else t) ts.

Definition set_callback (id : nat) (cb : Callback) (s : Page) : Page :=
  set_timers (replace_callback id cb (timers s)) s.

(** [resetSimulationLogs()] *)
Definition resetSimulationLogs (s : Page) : Page :=
  set_event_counter 0 (set_defense_tbody [RowPlaceholder] (set_simulation_log [LogPlaceholder] s)).

(** [initNetworkVisualization()]: the network is created on the first call
    only. *)
Definition initNetworkVisualization (s : Page) : Page :=
  match networkInstance s with
  | None => set_networkInstance (Some initial_network) s
  | Some _ => s
  end.

(** [resetNetworkVisualization()] *)
Definition resetNetworkVisualization (s : Page) : Page :=
  match networkInstance s with
  | None => s
  | Some g => set_networkInstance (Some (resetNetwork g)) s
  end.

(** [pauseSimulation()] *)
Definition pauseSimulation (s : Page) : Page :=
  showToast "Simulation paused. Click Resume to continue." "Simulation" "warning"
    (set_start_label ResumeSimulationLabel (set_simulationRunning false s)).

(** [resetSimulation()] *)
Definition resetSimulation (s : Page) : Page :=
  showToast "Simulation reset successfully." "Simulation" "success"
    (resetNetworkVisualization
       (resetSimulationLogs
          (set_reset_disabled true
             (set_start_disabled false
                (set_start_label StartSimulationLabel
                   (set_simulationRunning false s)))))).

(** [toggleVisualizationView(viewType)] *)
Definition toggleVisualizationView (viewType : string) (s : Page) : Page :=
  if String.eqb viewType "tree"
  then showToast "Attack tree view is not implemented in this demo." "View Change" "info" s
  else s.

(** [selectOptionsByValues(selectElement, values)] *)
Definition selectOptionsByValues (values : list string) (opts : list (string * bool))
  : list (string * bool) :=
  map (fun o => if existsb (String.eqb (fst o)) values then (fst o, true) else o) opts.

(** [updateSimulationOptions()] *)
Definition updateSimulationOptions (s : Page) : Page :=
  let scenario := value (scenario_select s) in
  let cleared := map (fun o => (fst o, false)) (target_select s) in
  let chosen :=
    if String.eqb scenario "ransomware" then selectOptionsByValues ["endpoints"; "databases"] cleared
    else if String.eqb scenario "phishing" then selectOptionsByValues ["endpoints"] cleared
    else if String.eqb scenario "ddos" then selectOptionsByValues ["web_servers"; "network"] cleared
    else if String.eqb scenario "data_exfiltration" then selectOptionsByValues ["databases"; "endpoints"] cleared
    else if String.eqb scenario "supply_chain" then selectOptionsByValues ["web_servers"; "endpoints"] cleared
    else cleared in
  set_target_select chosen s.

(** [Array.from(select.selectedOptions).map(option => option.value)] *)
Definition selected_values (opts : list (string * bool)) : list string :=
  map fst (filter snd opts).

(** The [tr] built by [addDefenseAction(event)]. *)
Definition badgeClass_of (event : Event) : string :=
  match effectiveness event with
  | Some e => if String.eqb e "High" then "bg-success"
              else if String.eqb e "Low" then "bg-danger"
              else "bg-warning"
  | None => "bg-warning"
  end.

Definition defense_row (event : Event) : TableRow :=
  DefenseRow (time event) (determineAttackVector (message event))
             (Js.render (defense event)) (badgeClass_of event)
             (Js.render (effectiveness event)).

(** [tbody.querySelector('td[colspan="4"]')] finds the placeholder row
    only. *)
Definition is_placeholder_row (r : TableRow) : bool :=
  match r with
  | RowPlaceholder => true
  | DefenseRow _ _ _ _ _ => false
  end.

(** [addDefenseAction(event)] *)
Definition addDefenseAction (event : Event) (s : Page) : Page :=
  let tbody :=
    if existsb is_placeholder_row (defense_tbody s) then [] else defense_tbody s in
  set_defense_tbody (tbody ++ [defense_row event]) s.

(** The [div.event-item] built by [addSimulationEvent(event, eventCount)]. *)
Definition typeClass_of (event : Event) : string :=
  if String.eqb (type event) "attack" then "event-type-attack"
  else if String.eqb (type event) "defense" then "event-type-defense"
  else if String.eqb (type event) "network" then "event-type-network"
  else "event-type-alert".

Definition log_item (event : Event) : LogChild :=
  EventItem (time event) (typeClass_of event) (Js.toUpperCase (type event)) (message event).

(** The test [event.type === 'defense' && event.defense]. *)
Definition recorded (event : Event) : bool :=
  String.eqb (type event) "defense" && Js.truthy (defense event).

(** [addSimulationEvent(event, eventCount)] *)
Definition addSimulationEvent (event : Event) (eventCount : nat) (s : Page) : Page :=
  let s1 := set_simulation_log (simulation_log s ++ [log_item event]) s in
  if recorded event then addDefenseAction event s1 else s1.

(** [updateNetworkForScenario(scenario)]: the [simulate...] functions arm
    one timeout per step. *)
Definition arm_transitions (steps : list (N * list Statement)) (s : Page) : Page :=
  fold_left (fun s' step => setTimer (GraphTimeout (snd step)) (fst step) s') steps s.

Definition updateNetworkForScenario (scenario : string) (s : Page) : Page :=
  match networkInstance s with
  | None => s
  | Some _ => arm_transitions (scenario_transitions scenario) s
  end.

(** [runSimulation(scenario, difficulty, targets)], after the script has
    been looked up. *)
Definition runSimulation_events (events : list Event) (scenario : string) (s : Page) : Page :=
  updateNetworkForScenario scenario (setTimer (IntervalTick events 0 0) 500 s).

Definition runSimulation (scenario difficulty : string) (targets : list string) (s : Page) : Page :=
  runSimulation_events (getScenarioEvents scenario) scenario s.

(** [showSimulationResults()], given the values of its two
    [Math.random()] calls. *)
Definition showSimulationResults (r1 r2 : Z) (s : Page) : Page :=
  set_reports
    (reports s ++
       [mkReport (text (scenario_select s)) "1 minute 15 seconds"
                 (defenseScore r1) (attackScore r2)]) s.

(** [simulationCompleted()] *)
Definition simulationCompleted (r1 r2 : Z) (s : Page) : Page :=
  showSimulationResults r1 r2
    (set_start_label StartNewSimulationLabel (set_simulationRunning false s)).

(** [startSimulation()] *)
Definition startSimulation (s : Page) : Page :=
  if simulationRunning s then pauseSimulation s
  else
    let scenario := value (scenario_select s) in
    let difficulty := difficulty_select s in
    let targets := selected_values (target_select s) in
    match targets with
    | [] => showToast "Please select at least one target system." "Validation Error" "warning" s
    | _ :: _ =>
        setTimer (StartTimeout scenario difficulty targets) 1500
          (initNetworkVisualization
             (resetSimulationLogs
                (set_start_label StartingLabel (set_start_disabled true s))))
    end.

(** *** Timer callbacks *)

(** The callback of the 1500 ms timeout of [startSimulation]. *)
Definition start_timeout (scenario difficulty : string) (targets : list string) (s : Page) : Page :=
  showToast
    ("Starting " ++ formatScenarioName scenario ++ " simulation on " ++ difficulty ++ " difficulty.")%string
    "Simulation" "info"
    (runSimulation scenario difficulty targets
       (set_simulationRunning true
          (set_reset_disabled false
             (set_start_disabled false
                (set_start_label PauseSimulationLabel s))))).

(** The callback of the 500 ms interval of [runSimulation]; [id] is the
    [interval] it clears. *)
Definition interval_tick (id : nat) (events : list Event) (eventCount i : nat) (s : Page) : Page :=
  if negb (simulationRunning s) then s
  else
    match nth_error events i with
    | None => setTimer CompletionTimeout 1000 (clearTimer id s)
    | Some event =>
        set_callback id (IntervalTick events (S eventCount) (S i))
          (set_event_counter (S eventCount) (addSimulationEvent event eventCount s))
    end.

(** The callback of a [simulate...] timeout. *)
Definition graph_timeout (body : list Statement) (s : Page) : Page :=
  match networkInstance s with
  | None => s
  | Some g => set_networkInstance (Some (exec_body body g)) s
  end.

Definition run_callback (t : Timer) (r1 r2 : Z) (s : Page) : Page :=
  match callback t with
  | StartTimeout scenario difficulty targets => start_timeout scenario difficulty targets s
  | IntervalTick events eventCount i => interval_tick (timer_id t) events eventCount i s
  | CompletionTimeout => simulationCompleted r1 r2 s
  | GraphTimeout body => graph_timeout body s
  end.

Definition is_interval (t : Timer) : bool :=
  match callback t with
  | IntervalTick _ _ _ => true
  | _ => false
  end.

(** The pending timer [id] fires; a timeout leaves the table before its
    callback runs, an interval stays until it is cleared. *)
Definition fire (id : nat) (r1 r2 : Z) (s : Page) : option Page :=
  match find (fun t => Nat.eqb (timer_id t) id) (timers s) with
  | None => None
  | Some t => Some (run_callback t r1 r2 (if is_interval t then s else clearTimer id s))
  end.

(** ** The page as a transition system

    What can happen to the page: the user changes a select, clicks a
    button (a disabled button gets no click), or a pending timer fires.
    Timers may fire in any order, which includes every order the browser's
    clock can produce. *)
Inductive Action :=
| ChangeScenario (o : SelectOption)
| ChangeDifficulty (v : string)
| ToggleTarget (v : string)
| ClickStart
| ClickReset
| ClickViewToggle (view : string)
| Fire (id : nat) (r1 r2 : Z).

Definition step (a : Action) (s : Page) : option Page :=
  match a with
  | ChangeScenario o => Some (updateSimulationOptions (set_scenario_select o s))
  | ChangeDifficulty v => Some (set_difficulty_select v s)
  | ToggleTarget v =>
      Some (set_target_select
              (map (fun o => if String.eqb (fst o) v then (fst o, negb (snd o)) else o)
                   (target_select s)) s)
  | ClickStart => if start_disabled s then None else Some (startSimulation s)
  | ClickReset => if reset_disabled s then None else Some (resetSimulation s)
  | ClickViewToggle view => Some (toggleVisualizationView view s)
  | Fire id r1 r2 => fire id r1 r2 s
  end.

Fixpoint exec (acts : list Action) (s : Page) : option Page :=
  match acts with
  | [] => Some s
  | a :: rest =>
      match step a s with
      | Some s' => exec rest s'
      | None => None
      end
  end.

(** The page as the template delivers it, once [setupSimulationControls]
    has attached the handlers. *)
Definition initial_page : Page :=
  mkPage None false StartSimulationLabel false true
         (mkOption "ransomware" "Ransomware Attack") "medium"
         [("web_servers", false); ("databases", false); ("endpoints", false);
          ("network", false); ("cloud", false)]
         [LogPlaceholder] [RowPlaceholder] 0 [] [] [] 1.

Definition is_fire (a : Action) : bool :=
  match a with
  | Fire _ _ _ => true
  | _ => false
  end.

(** ** Observations and invariants *)

Definition ids (ts : list Timer) : list nat := map timer_id ts.

(** Timer ids are pairwise distinct and below the counter. *)
Definition wf (s : Page) : Prop :=
  NoDup (ids (timers s)) /\ Forall (fun t => timer_id t < next_timer s) (timers s).

Definition is_graph (t : Timer) : bool :=
  match callback t with
  | GraphTimeout _ => true
  | _ => false
  end.

(** The pending timers of the playback itself: start timeout, delivery
    interval, completion timeout. *)
Definition run_timers (s : Page) : list Timer :=
  filter (fun t => negb (is_graph t)) (timers s).

(** Number of firings a pending timer still stands for while the simulation
    runs: itself and the timers its callback arms. *)
Definition weight (t : Timer) : nat :=
  match callback t with
  | StartTimeout scenario _ _ =>
      3 + length (getScenarioEvents scenario) + length (scenario_transitions scenario)
  | IntervalTick events _ i => 2 + (length events - i)
  | CompletionTimeout => 1
  | GraphTimeout _ => 1
  end.

Definition fuel (s : Page) : nat := list_sum (map weight (timers s)).

(** A run of actions from the initial page leads to [s]. *)
Definition reachable (s : Page) : Prop :=
  exists acts, exec acts initial_page = Some s.

(** The event log is the sequence of [event-item]s of [#simulation-log],
    the defense ledger the sequence of non-placeholder rows of the defense
    table. *)
Definition is_event_item (c : LogChild) : bool :=
  match c with
  | LogPlaceholder => false
  | EventItem _ _ _ _ => true
  end.

Definition is_defense_item (c : LogChild) : bool :=
  match c with
  | LogPlaceholder => false
  | EventItem _ typeClass _ _ => String.eqb typeClass "event-type-defense"
  end.

Definition event_log (s : Page) : list LogChild :=
  filter is_event_item (simulation_log s).

Definition defense_events (s : Page) : list LogChild :=
  filter is_defense_item (simulation_log s).

Definition defense_ledger (s : Page) : list TableRow :=
  filter (fun r => negb (is_placeholder_row r)) (defense_tbody s).

(** The ledger row [row] records the delivered event [item], an event of
    category defense: same time, and the attack vector inferred from the
    message. *)
Definition from_defense_event (item : LogChild) (row : TableRow) : Prop :=
  exists t msg action badge eff,
    item = EventItem t "event-type-defense" "DEFENSE" msg /\
    row = DefenseRow t (determineAttackVector msg) action badge eff.

(** The table body that shows [rows]. *)
Definition tbody_of (rows : list TableRow) : list TableRow :=
  match rows with
  | [] => [RowPlaceholder]
  | _ :: _ => rows
  end.

Definition rows_of (events : list Event) : list TableRow :=
  map defense_row (filter recorded events).

(** The script invariant: a defense event carries a defense action and an
    effectiveness. *)
Definition event_ok (e : Event) : bool :=
  implb (String.eqb (type e) "defense")
        (Js.truthy (defense e) && Js.truthy (effectiveness e)).

Definition script_ok (events : list Event) : bool := forallb event_ok events.

(** A callback body addresses nodes and edges of the initial network. *)
Definition statement_ok (st : Statement) : bool :=
  match st with
  | NodesUpdate ps =>
      forallb (fun p => existsb (Nat.eqb (np_id p)) (map node_id initial_nodes)) ps
  | EdgesUpdate refs =>
      forallb (fun r => Nat.ltb (er_index r) (length initial_edges)) refs
  end.

Definition callback_ok (cb : Callback) : bool :=
  match cb with
  | IntervalTick events _ _ => script_ok events
  | GraphTimeout body => forallb statement_ok body
  | _ => true
  end.

Definition timer_ok (t : Timer) : bool := callback_ok (callback t).

(** What no update changes: a node's id, label, shape and icon, an edge's
    id and end points. *)
Definition node_key (n : Node) : nat * option string * option string * option Icon :=
  (node_id n, node_label n, node_shape n, node_icon n).

Definition edge_key (e : Edge) : nat * option nat * option nat :=
  (edge_id e, edge_from e, edge_to e).

Definition graph_inv (g : Network) : Prop :=
  map node_key (nodes g) = map node_key initial_nodes /\
  map edge_key (edges g) = map edge_key initial_edges.

Definition ledger_inv (s : Page) : Prop :=
  exists rows,
    defense_tbody s = tbody_of rows /\
    Forall2 from_defense_event (defense_events s) rows.

Record page_inv (s : Page) : Prop := {
  pi_wf : wf s;
  pi_timers : forallb timer_ok (timers s) = true;
  pi_graph : forall g, networkInstance s = Some g -> graph_inv g;
  pi_ledger : ledger_inv s
}.

(** The timers [arm_transitions] adds, the first with id [n]. *)
Fixpoint graph_timers (n : nat) (steps : list (N * list Statement)) : list Timer :=
  match steps with
  | [] => []
  | step :: rest => mkTimer n (fst step) (GraphTimeout (snd step)) :: graph_timers (S n) rest
  end.

(** ** One uninterrupted run

    A run goes through four phases: the start timeout is pending
    ([Loading]), the delivery interval is pending with cursor [i]
    ([Playing i]), the completion timeout is pending ([Finishing]), none of
    the three is pending ([Completed]).  Timeouts of the [simulate...]
    functions may be pending in every phase. *)
Inductive Phase :=
| Loading
| Playing (i : nat)
| Finishing
| Completed.

(** Number of events delivered when the run is in a phase. *)
Definition delivered (events : list Event) (ph : Phase) : nat :=
  match ph with
  | Loading => 0
  | Playing i => i
  | Finishing | Completed => length events
  end.

Definition phase_timers (scenario : string) (events : list Event) (ph : Phase)
  (ts : list Timer) : Prop :=
  match ph with
  | Loading =>
      exists id d difficulty targets,
        ts = [mkTimer id d (StartTimeout scenario difficulty targets)] /\
        events = getScenarioEvents scenario
  | Playing i =>
      exists id d, ts = [mkTimer id d (IntervalTick events i i)] /\ i <= length events
  | Finishing => exists id d, ts = [mkTimer id d CompletionTimeout]
  | Completed => ts = []
  end.

Definition phase_running (ph : Phase) : bool :=
  match ph with
  | Playing _ | Finishing => true
  | Loading | Completed => false
  end.

Definition phase_label (ph : Phase) : StartLabel :=
  match ph with
  | Loading => StartingLabel
  | Playing _ | Finishing => PauseSimulationLabel
  | Completed => StartNewSimulationLabel
  end.

(** The page [s] is in phase [ph] of a run of the script [events] that
    started when the reports shown so far were [shown]. *)
Record run_inv (scenario : string) (events : list Event) (shown : list Report)
  (ph : Phase) (s : Page) : Prop := {
  ri_wf : wf s;
  ri_timers : phase_timers scenario events ph (run_timers s);
  ri_running : simulationRunning s = phase_running ph;
  ri_label : start_label s = phase_label ph;
  ri_log : simulation_log s = LogPlaceholder :: map log_item (firstn (delivered events ph) events);
  ri_tbody : defense_tbody s = tbody_of (rows_of (firstn (delivered events ph) events));
  ri_counter : event_counter s = delivered events ph;
  ri_reports :
    match ph with
    | Completed => exists rep, reports s = shown ++ [rep]
    | _ => reports s = shown
    end
}.

(** No run is under way: the simulation is not running, the start button
    can be clicked, and no start timeout, delivery interval or completion
    timeout is pending. *)
Definition idle (s : Page) : Prop :=
  simulationRunning s = false /\ start_disabled s = false /\ run_timers s = [].

(** The run has completed. *)
Definition completed (s : Page) : Prop :=
  simulationRunning s = false /\ start_label s = StartNewSimulationLabel /\ run_timers s = [].

(** The state [startSimulation]'s timeout leaves the page in just before it
    calls [runSimulation]. *)
Definition ready (s : Page) : Prop :=
  wf s /\ run_timers s = [] /\ simulationRunning s = true /\
  start_label s = PauseSimulationLabel /\
  simulation_log s = [LogPlaceholder] /\ defense_tbody s = [RowPlaceholder] /\
  event_counter s = 0.

(** Fire the pending timers from the head of the table, at most [n]
    times. *)
Fixpoint drain (n : nat) (r1 r2 : Z) (s : Page) : list Action * Page :=
  match n, timers s with
  | S n', t :: _ =>
      match fire (timer_id t) r1 r2 s with
      | Some s' =>
          let (acts, s'') := drain n' r1 r2 s' in (Fire (timer_id t) r1 r2 :: acts, s'')
      | None => ([], s)
      end
  | _, _ => ([], s)
  end.

(** The message of a log entry. *)
Definition item_message_of (c : LogChild) : string :=
  match c with
  | LogPlaceholder => EmptyString
  | EventItem _ _ _ msg => msg
  end.

(** The fifth rule of [determineAttackVector] is reached: none of the four
    keywords tested before it occurs in the message. *)
Definition reaches_lateral_rule (msg : string) : Prop :=
  Js.includes msg "phishing" = false /\
  Js.includes msg "malicious attachment" = false /\
  Js.includes msg "command and control" = false /\
  Js.includes msg "escalate privileges" = false.

(** A page on which [runSimulation] can be called directly. *)
Definition ready_page : Page :=
  set_simulationRunning true (set_start_label PauseSimulationLabel initial_page).

(** The initial page once the user has selected the target
    [endpoints]. *)
Definition endpoints_page : Page :=
  set_target_select
    [("web_servers", false); ("databases", false); ("endpoints", true);
     ("network", false); ("cloud", false)] initial_page.

(** The page a list of actions leads to (the page itself if one of them is
    not enabled). *)
Definition after (acts : list Action) (s : Page) : Page :=
  match exec acts s with
  | Some s' => s'
  | None => s
  end.


(** A ransomware run on [endpoints_page] in the order of the browser's
    clock: the start timeout, then the ticks of the delivery interval every
    500 ms with the timeouts of [simulateRansomwareAttack] due at 2000, 6000
    and 9000 ms in between, then the completion timeout. *)
Definition ransomware_schedule : list Action :=
  [ClickStart; Fire 1 0 0] ++ repeat (Fire 2 0 0) 4 ++ [Fire 3 0 0] ++
  repeat (Fire 2 0 0) 8 ++ [Fire 4 0 0] ++ repeat (Fire 2 0 0) 5 ++
  [Fire 5 0 0; Fire 9 0 0].

(** The perimeter nodes, Internet and Firewall, which
    [resetNetworkVisualization] skips. *)
Definition is_perimeter (n : Node) : bool :=
  Nat.eqb (node_id n) 1 || Nat.eqb (node_id n) 2.

(** The Admin node as a reset leaves it: the initial node, which has no
    colour of its own, with the colour the [icon] branch gives it. *)
Definition admin_after_reset : Node :=
  mkNode 6 (Some "Admin") (Some "icon") (Some (mkNodeColor "#ffffff" "#0dcaf0"))
         (Some (mkIcon "FontAwesome" "\uf007" "#0dcaf0")).

(** The user picks the scenario [ddos], which selects its default
    targets. *)
Definition ddos_page : Page :=
  after [ChangeScenario (mkOption "ddos" "DDoS Attack")] initial_page.

(** A DDoS run in the order of the browser's clock up to 9000 ms after
    [runSimulation] (ticks every 500 ms, the timeouts of
    [simulateDDoSAttack] due at 2000, 4000, 6000 and 9000 ms), then a click
    on Reset. *)
Definition ddos_then_reset : list Action :=
  [ClickStart; Fire 1 0 0] ++ repeat (Fire 2 0 0) 4 ++ [Fire 3 0 0] ++
  repeat (Fire 2 0 0) 4 ++ [Fire 4 0 0] ++ repeat (Fire 2 0 0) 4 ++ [Fire 5 0 0] ++
  repeat (Fire 2 0 0) 5 ++ [Fire 6 0 0; ClickReset].

(** The page without its toast notifications. *)
Definition without_toasts (s : Page) : Page := set_toasts [] s.

(** ** Further observations *)

(** The ten keyword rules of [determineAttackVector], in the order of its
    [if] statements. *)
Definition attack_vector_rules : list (string * string) :=
  [ ("phishing", "Phishing");
    ("malicious attachment", "Malicious Attachment");
    ("command and control", "C2 Communication");
    ("escalate privileges", "Privilege Escalation");
    ("lateral movement", "Lateral Movement");
    ("file access", "Unauthorized Access");
    ("encryption", "Encryption");
    ("DDoS", "DDoS");
    ("SQL", "SQL Injection");
    ("exfiltration", "Data Exfiltration") ].

(** Top-down evaluation of a rule list, first match wins. *)
Fixpoint first_match (rules : list (string * string)) (msg : string) : string :=
  match rules with
  | [] => "Unknown"
  | (keyword, label) :: rest =>
      if Js.includes msg keyword then label else first_match rest msg
  end.

(** Every character of the string is in the ASCII range. *)
Definition is_ascii (s : string) : Prop :=
  Forall (fun c => nat_of_ascii c < 128) (list_ascii_of_string s).

(** The values of the template's target select, in document order. *)
Definition template_targets : list string :=
  ["web_servers"; "databases"; "endpoints"; "network"; "cloud"].

(** The script invariant in full: an event has a defense action and an
    effectiveness when its type is [defense], and neither otherwise. *)
Definition event_shape_ok (e : Event) : bool :=
  if String.eqb (type e) "defense"
  then Js.truthy (defense e) && Js.truthy (effectiveness e)
  else match defense e, effectiveness e with
       | None, None => true
       | _, _ => false
       end.

(** The string has no underscore. *)
Definition no_underscore (s : string) : Prop :=
  Forall (fun c => c <> "_"%char) (list_ascii_of_string s).

(** The targets the [switch] of [updateSimulationOptions] asks for. *)
Definition scenario_targets (scenario : string) : list string :=
  if String.eqb scenario "ransomware" then ["endpoints"; "databases"]
  else if String.eqb scenario "phishing" then ["endpoints"]
  else if String.eqb scenario "ddos" then ["web_servers"; "network"]
  else if String.eqb scenario "data_exfiltration" then ["databases"; "endpoints"]
  else if String.eqb scenario "supply_chain" then ["web_servers"; "endpoints"]
  else [].

(** A callback body runs to its end on [g]: no statement throws. *)
Fixpoint body_completes (body : list Statement) (g : Network) : bool :=
  match body with
  | [] => true
  | st :: rest =>
      match exec_statement st g with
      | Some g' => body_completes rest g'
      | None => false
      end
  end.

(** The ransomware run of [ransomware_schedule] has completed and the user
    has clicked Start again: the start timeout (id 10) is pending and the
    Reset button is enabled. *)
Definition loading_again_page : Page :=
  after (ransomware_schedule ++ [ClickStart]) endpoints_page.

(** A ransomware run paused after three events. *)
Definition paused_page : Page :=
  after [ClickStart; Fire 1 0 0; Fire 2 0 0; Fire 2 0 0; Fire 2 0 0; ClickStart]
        endpoints_page.

(** Actions that neither click Start nor Reset: timer firings, changes of
    the three selects and clicks on a view toggle. *)
Definition is_passive (a : Action) : bool :=
  match a with
  | ClickStart | ClickReset => false
  | _ => true
  end.

(** The log element holds its placeholder block first and event items
    after it. *)
Definition log_ok (l : list LogChild) : bool :=
  match l with
  | LogPlaceholder :: items => forallb is_event_item items
  | _ => false
  end.

(** The character at index [k] of the scenario id starts a word: it is the
    first character or follows an underscore. *)
Definition word_start (k : nat) (scenarioId : string) : bool :=
  match k with
  | 0 => true
  | S j =>
      match String.get j scenarioId with
      | Some c => Ascii.eqb c "_"
      | None => false
      end
  end.

(** A scenario id read character by character: an underscore becomes a
    space, the first character of a word is upper-cased, every other
    character is kept; [start] says whether a word starts here. *)
Fixpoint title_case (start : bool) (s : string) : string :=
  match s with
  | EmptyString => EmptyString
  | String c rest =>
      if Ascii.eqb c "_" then String " " (title_case true rest)
      else String (if start then Js.upper_ascii c else c) (title_case false rest)
  end.

(** A ransomware run reset right after its start timeout.  Reset cancels
    no timer, so the delivery interval of that run (id 2) is still pending
    and polls [simulationRunning]. *)
Definition reset_page : Page :=
  after [ClickStart; Fire 1 0 0; ClickReset] endpoints_page.

(** The next run on [reset_page], with no user action after the click on
    Start: the start timeout (id 9) fires, the old delivery interval (id 2)
    and the new one (id 10) tick in turn, as two timers of period 500 ms do,
    seventeen times each, and the two completion timeouts (ids 17 and 18)
    fire. *)
Definition second_run : list Action :=
  [ClickStart; Fire 9 0 0] ++ concat (repeat [Fire 2 0 0; Fire 10 0 0] 17) ++
  [Fire 17 0 0; Fire 18 0 0].

(** * Properties *)

(** ** The table of pending timers *)

Section TimerTable.

Lemma list_sum_cons (n : nat) (l : list nat) : list_sum (n :: l) = n + list_sum l.
Proof. reflexivity. Qed.

Lemma find_id ts id t :
  find (fun t => Nat.eqb (timer_id t) id) ts = Some t -> In t ts /\ timer_id t = id.
Proof.
  intros H. apply find_some in H. destruct H as [Hin Heq].
  split; [assumption | now apply Nat.eqb_eq].
Qed.

Lemma ids_remove id ts :
  ids (remove_id id ts) = filter (fun k => negb (Nat.eqb k id)) (ids ts).
Proof.
  induction ts as [|t ts IH]; [reflexivity|].
  cbn. destruct (Nat.eqb (timer_id t) id); cbn; [|f_equal]; exact IH.
Qed.

Lemma ids_replace id cb ts : ids (replace_callback id cb ts) = ids ts.
Proof.
  induction ts as [|t ts IH]; [reflexivity|].
  cbn. destruct (Nat.eqb_spec (timer_id t) id); cbn; f_equal; auto.
Qed.

Lemma remove_id_absent id ts : ~ In id (ids ts) -> remove_id id ts = ts.
Proof.
  induction ts as [|t ts IH]; [reflexivity|].
  cbn. intros Hn. destruct (Nat.eqb_spec (timer_id t) id) as [E|E].
  - exfalso. apply Hn. now left.
  - cbn. f_equal. apply IH. intros Hin. apply Hn. now right.
Qed.

Lemma replace_absent id cb ts : ~ In id (ids ts) -> replace_callback id cb ts = ts.
Proof.
  induction ts as [|t ts IH]; [reflexivity|].
  cbn. intros Hn. destruct (Nat.eqb_spec (timer_id t) id) as [E|E].
  - exfalso. apply Hn. now left.
  - f_equal. apply IH. intros Hin. apply Hn. now right.
Qed.

Lemma In_ids t ts : In t ts -> In (timer_id t) (ids ts).
Proof. apply in_map. Qed.

(** Removing a pending timer takes exactly its weight out of the sum. *)
Lemma weight_remove t ts :
  NoDup (ids ts) -> In t ts ->
  list_sum (map weight (remove_id (timer_id t) ts)) + weight t = list_sum (map weight ts).
Proof.
  induction ts as [|u ts IH]; [contradiction|].
  cbn [ids map]. intros Hnd Hin. inversion Hnd as [|? ? Hnotin Hnd']; subst.
  unfold remove_id. cbn [filter]. fold (remove_id (timer_id t) ts).
  destruct Hin as [->|Hin].
  - rewrite Nat.eqb_refl. cbn [negb].
    rewrite remove_id_absent by assumption. rewrite list_sum_cons. lia.
  - destruct (Nat.eqb_spec (timer_id u) (timer_id t)) as [E|E].
    + exfalso. apply Hnotin. rewrite E. now apply In_ids.
    + cbn [negb map]. rewrite !list_sum_cons. specialize (IH Hnd' Hin). lia.
Qed.

Lemma weight_replace t cb ts :
  NoDup (ids ts) -> In t ts ->
  list_sum (map weight (replace_callback (timer_id t) cb ts)) + weight t =
  list_sum (map weight ts) + weight (mkTimer (timer_id t) (delay t) cb).
Proof.
  induction ts as [|u ts IH]; [contradiction|].
  cbn [ids map]. intros Hnd Hin. inversion Hnd as [|? ? Hnotin Hnd']; subst.
  destruct Hin as [->|Hin].
  - cbn [replace_callback map]. rewrite Nat.eqb_refl.
    fold (replace_callback (timer_id t) cb ts).
    rewrite replace_absent by assumption. rewrite !list_sum_cons. lia.
  - cbn [replace_callback map].
    destruct (Nat.eqb_spec (timer_id u) (timer_id t)) as [E|E].
    + exfalso. apply Hnotin. rewrite E. now apply In_ids.
    + fold (replace_callback (timer_id t) cb ts). rewrite !list_sum_cons.
      specialize (IH Hnd' Hin). lia.
Qed.

Lemma weight_app ts us :
  list_sum (map weight (ts ++ us)) = list_sum (map weight ts) + list_sum (map weight us).
Proof. now rewrite map_app, list_sum_app. Qed.

End TimerTable.

(** ** Rounding and the score ranges *)

Module Float64Facts.
Import Float64.
Local Open Scope Z_scope.

Lemma round_nonneg m : 0 <= m -> 0 <= round m.
Proof.
  intros Hm. unfold round.
  destruct (Z.log2 m <? precision); [exact Hm|].
  apply Z.shiftl_nonneg.
  assert (0 <= Z.shiftr m (Z.log2 m - (precision - 1))) by (apply Z.shiftr_nonneg; exact Hm).
  destruct (_ || _)%bool; lia.
Qed.

(** Rounding never crosses a multiple of the unit that is itself within
    the precision: below [c * 2^1074] the result is at most
    [c * 2^1074]. *)
Lemma round_le_multiple m c :
  0 < c <= 2 ^ precision ->
  0 <= m < c * 2 ^ unit_exponent ->
  round m <= c * 2 ^ unit_exponent.
Proof.
  intros Hc Hm. unfold round.
  destruct (Z.ltb_spec (Z.log2 m) precision) as [Hb|Hb]; [lia|].
  unfold precision, unit_exponent in *.
  set (b := Z.log2 m) in *.
  assert (Hpos : 0 < m).
  { destruct (Z.eq_dec m 0) as [->|]; [|lia]. subst b. simpl in Hb. lia. }
  destruct (Z.log2_spec m Hpos) as [Hlo Hhi]. fold b in Hlo, Hhi.
  set (s := b - (53 - 1)).
  assert (Hs : 1 <= s) by (unfold s; lia).
  assert (Hs' : s <= 1074).
  { destruct (Z_le_gt_dec s 1074) as [|Hgt]; [assumption|exfalso].
    assert (2 ^ (53 + 1074) <= 2 ^ b) by (apply Z.pow_le_mono_r; unfold s in Hgt; lia).
    assert (c * 2 ^ 1074 <= 2 ^ 53 * 2 ^ 1074)
      by (apply Z.mul_le_mono_nonneg_r; [apply Z.pow_nonneg|]; lia).
    rewrite <- Z.pow_add_r in * by lia. lia. }
  rewrite Z.shiftl_mul_pow2 by lia.
  rewrite Z.shiftr_div_pow2 by lia.
  assert (H2s : 0 < 2 ^ s) by (apply Z.pow_pos_nonneg; lia).
  assert (Hsplit : c * 2 ^ 1074 = (c * 2 ^ (1074 - s)) * 2 ^ s).
  { rewrite <- Z.mul_assoc, <- Z.pow_add_r by lia. do 2 f_equal. lia. }
  assert (Hq : m / 2 ^ s < c * 2 ^ (1074 - s)).
  { apply Z.div_lt_upper_bound; [assumption|]. rewrite Z.mul_comm. lia. }
  rewrite Hsplit.
  apply Z.mul_le_mono_nonneg_r; [lia|].
  destruct (_ || _)%bool; lia.
Qed.

Lemma floor_mul_range k c :
  0 < c <= 2 ^ precision -> is_random k ->
  0 <= floor (mul k c) <= c.
Proof.
  intros Hc [Hk0 Hk1]. unfold floor, mul.
  assert (H2 : 0 < 2 ^ unit_exponent) by (apply Z.pow_pos_nonneg; unfold unit_exponent; lia).
  assert (Hm : 0 <= k * c < c * 2 ^ unit_exponent) by nia.
  pose proof (round_nonneg (proj1 Hm)) as Hlo.
  pose proof (round_le_multiple Hc Hm) as Hhi.
  rewrite Z.shiftr_div_pow2 by (unfold unit_exponent; lia).
  split.
  - apply Z.div_pos; assumption.
  - apply Z.div_le_upper_bound; [assumption|]. lia.
Qed.

Lemma exact_floor_range k c :
  0 < c -> is_random k ->
  0 <= k * c / 2 ^ unit_exponent < c.
Proof.
  intros Hc [Hk0 Hk1].
  assert (H2 : 0 < 2 ^ unit_exponent) by (apply Z.pow_pos_nonneg; unfold unit_exponent; lia).
  split.
  - apply Z.div_pos; nia.
  - apply Z.div_lt_upper_bound; nia.
Qed.

End Float64Facts.

(** ** Invariants of every reachable page *)

Section WellFormedTimers.

Lemma wf_frame s s' :
  timers s' = timers s -> next_timer s' = next_timer s -> wf s -> wf s'.
Proof. unfold wf. intros -> ->. auto. Qed.

Lemma wf_setTimer cb d s : wf s -> wf (setTimer cb d s).
Proof.
  intros [Hnd Hlt]. unfold wf, setTimer. cbn. split.
  - unfold ids. rewrite map_app. cbn.
    apply NoDup_app; [assumption | repeat constructor; intros [] | ].
    intros k Hk [<-|[]]. unfold ids in Hk. apply in_map_iff in Hk.
    destruct Hk as [t [Ht Hin]]. rewrite Forall_forall in Hlt.
    specialize (Hlt t Hin). lia.
  - apply Forall_app. split.
    + eapply Forall_impl; [|exact Hlt]. cbn. intros; lia.
    + constructor; [cbn; lia | constructor].
Qed.

Lemma wf_clearTimer id s : wf s -> wf (clearTimer id s).
Proof.
  intros [Hnd Hlt]. unfold wf, clearTimer. cbn. split.
  - rewrite ids_remove. now apply NoDup_filter.
  - unfold remove_id. rewrite Forall_forall in *. intros t Ht.
    apply filter_In in Ht. now apply Hlt.
Qed.

Lemma wf_set_callback id cb s : wf s -> wf (set_callback id cb s).
Proof.
  intros [Hnd Hlt]. unfold wf, set_callback. cbn. split.
  - now rewrite ids_replace.
  - unfold replace_callback. rewrite Forall_forall in *. intros t Ht.
    apply in_map_iff in Ht. destruct Ht as [u [Hu Hin]].
    specialize (Hlt u Hin).
    destruct (Nat.eqb_spec (timer_id u) id); subst; cbn; lia.
Qed.

Lemma wf_arm_transitions steps s : wf s -> wf (arm_transitions steps s).
Proof.
  unfold arm_transitions.
  revert s. induction steps as [|st steps IH]; intros s H; [exact H|].
  cbn. apply IH. now apply wf_setTimer.
Qed.

End WellFormedTimers.

Section CatalogFacts.

(** Whatever the key, the script is one of the four of the source. *)
Lemma getScenarioEvents_cases scenario :
  getScenarioEvents scenario = ransomware_events \/
  getScenarioEvents scenario = ddos_events \/
  getScenarioEvents scenario = data_exfiltration_events \/
  getScenarioEvents scenario = default_events.
Proof.
  unfold getScenarioEvents.
  destruct (String.eqb scenario "ransomware"); [now left|].
  destruct (String.eqb scenario "ddos"); [now right; left|].
  destruct (String.eqb scenario "data_exfiltration"); [now right; right; left|].
  now right; right; right.
Qed.

Lemma catalog_scripts_ok scenario : script_ok (getScenarioEvents scenario) = true.
Proof.
  destruct (getScenarioEvents_cases scenario) as [-> | [-> | [-> | ->]]]; reflexivity.
Qed.

Lemma catalog_transitions_ok scenario :
  forallb (fun step => forallb statement_ok (snd step)) (scenario_transitions scenario) = true.
Proof.
  unfold scenario_transitions.
  destruct (String.eqb scenario "ransomware"); [reflexivity|].
  destruct (String.eqb scenario "ddos"); [reflexivity|].
  destruct (String.eqb scenario "data_exfiltration"); reflexivity.
Qed.

Lemma script_ok_nth events i e :
  script_ok events = true -> nth_error events i = Some e -> event_ok e = true.
Proof.
  unfold script_ok. rewrite forallb_forall. intros H Hn.
  apply H. eapply nth_error_In. exact Hn.
Qed.

End CatalogFacts.

Section GraphFacts.

Lemma patch_node_key p n : node_key (patch_node p n) = node_key n.
Proof. unfold patch_node. now destruct (Nat.eqb (node_id n) (np_id p)). Qed.

Lemma patch_edge_key p e : edge_key (patch_edge p e) = edge_key e.
Proof. unfold patch_edge. now destruct (Nat.eqb (edge_id e) (ep_id p)). Qed.

Lemma existsb_node_id k ns :
  In k (map node_id ns) -> existsb (fun n => Nat.eqb (node_id n) k) ns = true.
Proof.
  intros H. apply in_map_iff in H. destruct H as [n [<- Hin]].
  apply existsb_exists. exists n. split; [assumption | apply Nat.eqb_refl].
Qed.

Lemma existsb_edge_id k es :
  In k (map edge_id es) -> existsb (fun e => Nat.eqb (edge_id e) k) es = true.
Proof.
  intros H. apply in_map_iff in H. destruct H as [e [<- Hin]].
  apply existsb_exists. exists e. split; [assumption | apply Nat.eqb_refl].
Qed.

(** Updating a known id is a map over the data set. *)
Lemma nodes_update_known p ns :
  In (np_id p) (map node_id ns) -> nodes_update p ns = map (patch_node p) ns.
Proof. intros H. unfold nodes_update. now rewrite existsb_node_id. Qed.

Lemma edges_update_known p es :
  In (ep_id p) (map edge_id es) -> edges_update p es = map (patch_edge p) es.
Proof. intros H. unfold edges_update. now rewrite existsb_edge_id. Qed.

Lemma node_ids_of_keys ns ms :
  map node_key ns = map node_key ms -> map node_id ns = map node_id ms.
Proof.
  intros H. apply (f_equal (map (fun k => fst (fst (fst k))))) in H.
  now rewrite !map_map in H.
Qed.

Lemma edge_ids_of_keys es fs :
  map edge_key es = map edge_key fs -> map edge_id es = map edge_id fs.
Proof.
  intros H. apply (f_equal (map (fun k => fst (fst k)))) in H.
  now rewrite !map_map in H.
Qed.

Lemma nodes_update_keys p ns :
  In (np_id p) (map node_id ns) ->
  map node_key (nodes_update p ns) = map node_key ns.
Proof.
  intros H. rewrite nodes_update_known by assumption.
  rewrite map_map. apply map_ext. apply patch_node_key.
Qed.

Lemma edges_update_keys p es :
  In (ep_id p) (map edge_id es) ->
  map edge_key (edges_update p es) = map edge_key es.
Proof.
  intros H. rewrite edges_update_known by assumption.
  rewrite map_map. apply map_ext. apply patch_edge_key.
Qed.

Lemma fold_nodes_update_keys ps ns :
  Forall (fun p => In (np_id p) (map node_id ns)) ps ->
  map node_key (fold_left (fun ns p => nodes_update p ns) ps ns) = map node_key ns.
Proof.
  revert ns. induction ps as [|p ps IH]; intros ns H; [reflexivity|].
  inversion H as [|? ? Hp Hps]; subst. cbn.
  pose proof (nodes_update_keys p ns Hp) as E.
  rewrite IH; [exact E|].
  rewrite (node_ids_of_keys _ _ E). exact Hps.
Qed.

Lemma fold_edges_update_keys ps es :
  Forall (fun p => In (ep_id p) (map edge_id es)) ps ->
  map edge_key (fold_left (fun es p => edges_update p es) ps es) = map edge_key es.
Proof.
  revert es. induction ps as [|p ps IH]; intros es H; [reflexivity|].
  inversion H as [|? ? Hp Hps]; subst. cbn.
  pose proof (edges_update_keys p es Hp) as E.
  rewrite IH; [exact E|].
  rewrite (edge_ids_of_keys _ _ E). exact Hps.
Qed.

Lemma resolve_ids es refs ps :
  resolve es refs = Some ps ->
  Forall (fun p => In (ep_id p) (map edge_id es)) ps.
Proof.
  revert ps. induction refs as [|r refs IH]; intros ps H; cbn in H.
  - injection H as <-. constructor.
  - destruct (nth_error es (er_index r)) as [e|] eqn:He; [|discriminate].
    destruct (resolve es refs) as [qs|]; [|discriminate].
    injection H as <-. constructor; [|now apply IH].
    cbn. apply in_map. eapply nth_error_In. exact He.
Qed.

Lemma exec_statement_inv st g g' :
  statement_ok st = true -> graph_inv g -> exec_statement st g = Some g' -> graph_inv g'.
Proof.
  intros Hok [Hn He] Hex. destruct st as [ps|refs]; cbn in Hex.
  - injection Hex as <-. split; [|exact He]. cbn.
    rewrite fold_nodes_update_keys; [exact Hn|].
    unfold statement_ok in Hok. rewrite forallb_forall in Hok.
    apply Forall_forall. intros p Hp.
    specialize (Hok p Hp). apply existsb_exists in Hok.
    destruct Hok as [k [Hk Hpk]]. apply Nat.eqb_eq in Hpk. subst k.
    rewrite (node_ids_of_keys _ _ Hn). exact Hk.
  - destruct (resolve (edges g) refs) as [ps|] eqn:Hr; [|discriminate].
    injection Hex as <-. split; [exact Hn|]. cbn.
    rewrite fold_edges_update_keys; [exact He|].
    eapply resolve_ids. exact Hr.
Qed.

Lemma exec_body_inv body g :
  forallb statement_ok body = true -> graph_inv g -> graph_inv (exec_body body g).
Proof.
  revert g. induction body as [|st body IH]; intros g Hok Hg; [exact Hg|].
  cbn in Hok. apply andb_true_iff in Hok. destruct Hok as [Hst Hrest].
  cbn. destruct (exec_statement st g) as [g'|] eqn:E; [|exact Hg].
  apply IH; [exact Hrest|]. eapply exec_statement_inv; eassumption.
Qed.

Lemma reset_node_keys ns n :
  In (node_id n) (map node_id ns) ->
  map node_key (reset_node ns n) = map node_key ns.
Proof.
  intros H. unfold reset_node.
  destruct (_ && _); [|reflexivity].
  destruct (_ || _); [now apply nodes_update_keys|].
  destruct (shape_is n "icon"); [now apply nodes_update_keys | reflexivity].
Qed.

Lemma fold_reset_node_keys l ns :
  Forall (fun n => In (node_id n) (map node_id ns)) l ->
  map node_key (fold_left reset_node l ns) = map node_key ns.
Proof.
  revert ns. induction l as [|n l IH]; intros ns H; [reflexivity|].
  inversion H as [|? ? Hn Hl]; subst. cbn.
  pose proof (reset_node_keys ns n Hn) as E.
  rewrite IH; [exact E|]. rewrite (node_ids_of_keys _ _ E). exact Hl.
Qed.

Lemma fold_reset_edge_keys l es :
  Forall (fun e => In (edge_id e) (map edge_id es)) l ->
  map edge_key (fold_left reset_edge l es) = map edge_key es.
Proof.
  revert es. induction l as [|e l IH]; intros es H; [reflexivity|].
  inversion H as [|? ? He Hl]; subst. cbn.
  assert (E : map edge_key (reset_edge es e) = map edge_key es)
    by (unfold reset_edge; now apply edges_update_keys).
  rewrite IH; [exact E|]. rewrite (edge_ids_of_keys _ _ E). exact Hl.
Qed.

Lemma resetNetwork_inv g : graph_inv g -> graph_inv (resetNetwork g).
Proof.
  intros [Hn He]. unfold resetNetwork. split; cbn.
  - rewrite fold_reset_node_keys; [exact Hn|].
    apply Forall_forall. intros n Hin. now apply in_map.
  - rewrite fold_reset_edge_keys; [exact He|].
    apply Forall_forall. intros e Hin. now apply in_map.
Qed.

Lemma initial_network_inv : graph_inv initial_network.
Proof. split; reflexivity. Qed.

End GraphFacts.

Section LedgerFacts.

Lemma is_defense_item_log_item e :
  is_defense_item (log_item e) = String.eqb (type e) "defense".
Proof.
  unfold log_item, is_defense_item, typeClass_of.
  destruct (String.eqb_spec (type e) "attack") as [->|_]; [reflexivity|].
  destruct (String.eqb (type e) "defense"); [reflexivity|].
  destruct (String.eqb (type e) "network"); reflexivity.
Qed.

Lemma log_item_defense e :
  String.eqb (type e) "defense" = true ->
  log_item e = EventItem (time e) "event-type-defense" "DEFENSE" (message e).
Proof.
  intros H. apply String.eqb_eq in H. unfold log_item, typeClass_of.
  rewrite H. reflexivity.
Qed.

Lemma ledger_rows_are_records items rows :
  Forall2 from_defense_event items rows -> existsb is_placeholder_row rows = false.
Proof.
  induction 1 as [|item row items rows H _ IH]; [reflexivity|].
  destruct H as (t & msg & a & b & eff & _ & ->). exact IH.
Qed.

Lemma strip_placeholder rows r :
  existsb is_placeholder_row rows = false ->
  (if existsb is_placeholder_row (tbody_of rows) then [] else tbody_of rows) ++ [r]
  = tbody_of (rows ++ [r]).
Proof.
  intros H. destruct rows as [|r0 rows]; [reflexivity|].
  cbn [tbody_of app]. rewrite H. reflexivity.
Qed.

Lemma ledger_filter rows :
  existsb is_placeholder_row rows = false ->
  filter (fun r => negb (is_placeholder_row r)) (tbody_of rows) = rows.
Proof.
  intros H. destruct rows as [|r0 rows]; [reflexivity|].
  cbn [tbody_of]. revert H. generalize (r0 :: rows). intros l.
  induction l as [|r l IH]; [reflexivity|].
  cbn. destruct (is_placeholder_row r); [discriminate|].
  cbn. intros H. f_equal. now apply IH.
Qed.

Lemma addSimulationEvent_ledger e n s :
  event_ok e = true -> ledger_inv s -> ledger_inv (addSimulationEvent e n s).
Proof.
  intros Hok (rows & Htb & Hrows).
  pose proof (ledger_rows_are_records Hrows) as Hrec.
  unfold addSimulationEvent, recorded, event_ok in *.
  destruct (String.eqb (type e) "defense") eqn:T.
  - cbn [implb] in Hok. apply andb_true_iff in Hok. destruct Hok as [Hd _].
    rewrite Hd. cbn [andb].
    exists (rows ++ [defense_row e]). split.
    + unfold addDefenseAction. cbn. rewrite Htb. now apply strip_placeholder.
    + unfold defense_events, addDefenseAction. cbn.
      rewrite filter_app. cbn [filter]. rewrite is_defense_item_log_item, T.
      apply Forall2_app; [exact Hrows|]. constructor; [|constructor].
      rewrite (log_item_defense e T). unfold defense_row.
      now repeat eexists.
  - cbn [andb]. exists rows. split; [exact Htb|].
    unfold defense_events. cbn.
    rewrite filter_app. cbn [filter]. rewrite is_defense_item_log_item, T.
    now rewrite app_nil_r.
Qed.

Lemma filter_sublength {A : Type} (f g : A -> bool) (l : list A) :
  (forall x, f x = true -> g x = true) ->
  length (filter f l) <= length (filter g l).
Proof.
  intros H. induction l as [|x l IH]; [constructor|].
  cbn. destruct (f x) eqn:F.
  - rewrite (H x F). cbn. lia.
  - destruct (g x); cbn; lia.
Qed.

End LedgerFacts.

Section PageInvariant.

Lemma page_inv_frame s s' :
  timers s' = timers s -> next_timer s' = next_timer s ->
  networkInstance s' = networkInstance s ->
  simulation_log s' = simulation_log s -> defense_tbody s' = defense_tbody s ->
  page_inv s -> page_inv s'.
Proof.
  intros Ht Hn Hg Hl Hd [W T G L]. constructor.
  - eapply wf_frame; eauto.
  - now rewrite Ht.
  - now rewrite Hg.
  - unfold ledger_inv, defense_events in *. now rewrite Hl, Hd.
Qed.

Lemma page_inv_setTimer cb d s :
  callback_ok cb = true -> page_inv s -> page_inv (setTimer cb d s).
Proof.
  intros Hcb [W T G L]. constructor.
  - now apply wf_setTimer.
  - cbn. rewrite forallb_app, T. cbn. unfold timer_ok. cbn. now rewrite Hcb.
  - exact G.
  - exact L.
Qed.

Lemma page_inv_clearTimer id s : page_inv s -> page_inv (clearTimer id s).
Proof.
  intros [W T G L]. constructor; [now apply wf_clearTimer | | exact G | exact L].
  cbn. unfold remove_id. rewrite forallb_forall in *. intros t Ht.
  apply filter_In in Ht. now apply T.
Qed.

Lemma page_inv_set_callback id cb s :
  callback_ok cb = true -> page_inv s -> page_inv (set_callback id cb s).
Proof.
  intros Hcb [W T G L]. constructor; [now apply wf_set_callback | | exact G | exact L].
  cbn. unfold replace_callback. rewrite forallb_forall in *. intros t Ht.
  apply in_map_iff in Ht. destruct Ht as [u [Hu Hin]].
  destruct (Nat.eqb (timer_id u) id); subst; [exact Hcb | now apply T].
Qed.

Lemma page_inv_resetSimulationLogs s : page_inv s -> page_inv (resetSimulationLogs s).
Proof.
  intros [W T G L]. constructor; [exact W | exact T | exact G |].
  exists []. split; [reflexivity | constructor].
Qed.

Lemma page_inv_initNetworkVisualization s :
  page_inv s -> page_inv (initNetworkVisualization s).
Proof.
  intros H. unfold initNetworkVisualization.
  destruct (networkInstance s) eqn:E; [exact H|].
  destruct H as [W T G L]. constructor; [exact W | exact T | | exact L].
  cbn. intros g [= <-]. apply initial_network_inv.
Qed.

Lemma page_inv_resetNetworkVisualization s :
  page_inv s -> page_inv (resetNetworkVisualization s).
Proof.
  intros H. unfold resetNetworkVisualization.
  destruct (networkInstance s) as [g|] eqn:E; [|exact H].
  destruct H as [W T G L]. constructor; [exact W | exact T | | exact L].
  cbn. intros g' [= <-]. apply resetNetwork_inv. now apply G.
Qed.

Lemma page_inv_graph_timeout body s :
  forallb statement_ok body = true -> page_inv s -> page_inv (graph_timeout body s).
Proof.
  intros Hb H. unfold graph_timeout.
  destruct (networkInstance s) as [g|] eqn:E; [|exact H].
  destruct H as [W T G L]. constructor; [exact W | exact T | | exact L].
  cbn. intros g' [= <-]. apply exec_body_inv; [exact Hb | now apply G].
Qed.

Lemma page_inv_addSimulationEvent e n s :
  event_ok e = true -> page_inv s -> page_inv (addSimulationEvent e n s).
Proof.
  intros He [W T G L]. constructor.
  - unfold addSimulationEvent. destruct (recorded e); exact W.
  - unfold addSimulationEvent. destruct (recorded e); exact T.
  - unfold addSimulationEvent. destruct (recorded e); exact G.
  - now apply addSimulationEvent_ledger.
Qed.

Lemma page_inv_arm_transitions steps s :
  forallb (fun step => forallb statement_ok (snd step)) steps = true ->
  page_inv s -> page_inv (arm_transitions steps s).
Proof.
  unfold arm_transitions. revert s. induction steps as [|st steps IH]; intros s Hok H; [exact H|].
  cbn in Hok. apply andb_true_iff in Hok. destruct Hok as [H1 H2].
  cbn. apply IH; [exact H2|]. now apply page_inv_setTimer.
Qed.

Lemma page_inv_updateNetworkForScenario scenario s :
  page_inv s -> page_inv (updateNetworkForScenario scenario s).
Proof.
  intros H. unfold updateNetworkForScenario.
  destruct (networkInstance s); [|exact H].
  apply page_inv_arm_transitions; [apply catalog_transitions_ok | exact H].
Qed.

Lemma page_inv_startSimulation s : page_inv s -> page_inv (startSimulation s).
Proof.
  intros H. unfold startSimulation.
  destruct (simulationRunning s).
  - revert H. apply page_inv_frame; reflexivity.
  - destruct (selected_values (target_select s)).
    + revert H. apply page_inv_frame; reflexivity.
    + apply page_inv_setTimer; [reflexivity|].
      apply page_inv_initNetworkVisualization, page_inv_resetSimulationLogs.
      revert H. apply page_inv_frame; reflexivity.
Qed.

Lemma page_inv_showToast message title type s :
  page_inv s -> page_inv (showToast message title type s).
Proof. apply page_inv_frame; reflexivity. Qed.

Lemma page_inv_resetSimulation s : page_inv s -> page_inv (resetSimulation s).
Proof.
  intros H. unfold resetSimulation.
  apply page_inv_showToast, page_inv_resetNetworkVisualization,
    page_inv_resetSimulationLogs.
  revert H. apply page_inv_frame; reflexivity.
Qed.

Lemma page_inv_start_timeout scenario difficulty targets s :
  page_inv s -> page_inv (start_timeout scenario difficulty targets s).
Proof.
  intros H. unfold start_timeout, runSimulation, runSimulation_events.
  apply page_inv_showToast, page_inv_updateNetworkForScenario, page_inv_setTimer.
  - apply catalog_scripts_ok.
  - revert H. apply page_inv_frame; reflexivity.
Qed.

Lemma page_inv_interval_tick id events eventCount i s :
  script_ok events = true -> page_inv s ->
  page_inv (interval_tick id events eventCount i s).
Proof.
  intros Hs H. unfold interval_tick.
  destruct (simulationRunning s); [|exact H]. cbn [negb].
  destruct (nth_error events i) as [e|] eqn:E.
  - apply page_inv_set_callback; [exact Hs|].
    eapply page_inv_frame;
      [| | | | | apply (page_inv_addSimulationEvent e eventCount);
                 [eapply script_ok_nth; eassumption | exact H] ]; reflexivity.
  - apply page_inv_setTimer; [reflexivity|]. now apply page_inv_clearTimer.
Qed.

Lemma page_inv_fire id r1 r2 s s' :
  page_inv s -> fire id r1 r2 s = Some s' -> page_inv s'.
Proof.
  intros H. unfold fire.
  destruct (find _ (timers s)) as [t|] eqn:F; [|discriminate].
  intros [= <-]. apply find_id in F. destruct F as [Hin Hid].
  assert (Hok : timer_ok t = true).
  { pose proof (pi_timers H) as T. rewrite forallb_forall in T. now apply T. }
  unfold run_callback, is_interval, timer_ok in *.
  destruct (callback t) as [sc df tg | evs n i | | body]; cbn in Hok.
  - apply page_inv_start_timeout. now apply page_inv_clearTimer.
  - now apply page_inv_interval_tick.
  - unfold simulationCompleted, showSimulationResults.
    eapply page_inv_frame; [| | | | | apply (page_inv_clearTimer id); exact H]; reflexivity.
  - apply page_inv_graph_timeout; [exact Hok|]. now apply page_inv_clearTimer.
Qed.

Lemma page_inv_step a s s' : page_inv s -> step a s = Some s' -> page_inv s'.
Proof.
  intros H. destruct a as [o | v | v | | | view | id r1 r2]; cbn [step].
  - intros [= <-]. revert H. apply page_inv_frame; reflexivity.
  - intros [= <-]. revert H. apply page_inv_frame; reflexivity.
  - intros [= <-]. revert H. apply page_inv_frame; reflexivity.
  - destruct (start_disabled s); [discriminate|]. intros [= <-].
    now apply page_inv_startSimulation.
  - destruct (reset_disabled s); [discriminate|]. intros [= <-].
    now apply page_inv_resetSimulation.
  - intros [= <-]. unfold toggleVisualizationView.
    destruct (String.eqb view "tree"); [|exact H].
    revert H. apply page_inv_frame; reflexivity.
  - now apply page_inv_fire.
Qed.

Lemma page_inv_initial : page_inv initial_page.
Proof.
  constructor.
  - split; constructor.
  - reflexivity.
  - intros g [=].
  - exists []. split; [reflexivity | constructor].
Qed.

Lemma page_inv_exec acts s s' : page_inv s -> exec acts s = Some s' -> page_inv s'.
Proof.
  revert s. induction acts as [|a acts IH]; intros s H; cbn.
  - now intros [= <-].
  - destruct (step a s) as [s1|] eqn:E; [|discriminate].
    apply IH. eapply page_inv_step; eassumption.
Qed.

Lemma reachable_inv s : reachable s -> page_inv s.
Proof. intros [acts H]. eapply page_inv_exec; [apply page_inv_initial | exact H]. Qed.

End PageInvariant.

(** ** One uninterrupted run *)

Section RunFacts.

Lemma firstn_snoc {A : Type} (l : list A) i x :
  nth_error l i = Some x -> firstn (S i) l = firstn i l ++ [x].
Proof.
  revert i. induction l as [|a l IH]; intros [|i] H; cbn in H; try discriminate.
  - now injection H as ->.
  - cbn. f_equal. now apply IH.
Qed.

Lemma rows_of_snoc events e :
  rows_of (events ++ [e]) = rows_of events ++ (if recorded e then [defense_row e] else []).
Proof.
  unfold rows_of. rewrite filter_app, map_app. cbn. now destruct (recorded e).
Qed.

Lemma rows_of_records events : existsb is_placeholder_row (rows_of events) = false.
Proof.
  unfold rows_of. induction (filter recorded events) as [|e l IH]; [reflexivity | exact IH].
Qed.

Lemma NoDup_ids_inj ts t u :
  NoDup (ids ts) -> In t ts -> In u ts -> timer_id t = timer_id u -> t = u.
Proof.
  induction ts as [|a ts IH]; [contradiction|].
  cbn. intros Hnd Ht Hu E. inversion Hnd as [|? ? Hnotin Hnd']; subst.
  destruct Ht as [->|Ht], Hu as [->|Hu]; [reflexivity | | | now apply IH].
  - exfalso. apply Hnotin. rewrite E. now apply In_ids.
  - exfalso. apply Hnotin. rewrite <- E. now apply In_ids.
Qed.

Lemma weight_pos t : 1 <= weight t.
Proof. unfold weight. destruct (callback t); lia. Qed.

Lemma fuel_zero s : fuel s = 0 -> timers s = [].
Proof.
  unfold fuel. destruct (timers s) as [|t ts]; [reflexivity|].
  cbn [map]. rewrite list_sum_cons. pose proof (weight_pos t). lia.
Qed.

Lemma arm_transitions_eq steps s :
  arm_transitions steps s =
  set_next_timer (next_timer s + length steps)
    (set_timers (timers s ++ graph_timers (next_timer s) steps) s).
Proof.
  unfold arm_transitions. revert s.
  induction steps as [|st steps IH]; intros s.
  - cbn. rewrite Nat.add_0_r, app_nil_r. now destruct s.
  - cbn [fold_left]. rewrite IH. unfold setTimer, set_next_timer, set_timers. cbn.
    f_equal; [now rewrite <- app_assoc | lia].
Qed.

Lemma graph_timers_all_graph n steps :
  filter (fun t => negb (is_graph t)) (graph_timers n steps) = [].
Proof. revert n. induction steps as [|st steps IH]; intros n; [reflexivity | apply IH]. Qed.

Lemma graph_timers_weight n steps :
  list_sum (map weight (graph_timers n steps)) = length steps.
Proof.
  revert n. induction steps as [|st steps IH]; intros n; [reflexivity|].
  cbn [graph_timers map length]. rewrite list_sum_cons, IH. reflexivity.
Qed.

Lemma run_timers_remove id s :
  run_timers (clearTimer id s) = remove_id id (run_timers s).
Proof.
  unfold run_timers, clearTimer, remove_id. cbn.
  induction (timers s) as [|t ts IH]; [reflexivity|].
  cbn [filter].
  destruct (Nat.eqb (timer_id t) id) eqn:E, (is_graph t) eqn:G;
    cbn [negb filter]; rewrite ?E, ?G; cbn [negb]; rewrite IH; reflexivity.
Qed.

Lemma run_timers_replace id cb ts :
  (forall u, In u ts -> timer_id u = id -> is_graph u = false) ->
  match cb with GraphTimeout _ => False | _ => True end ->
  filter (fun t => negb (is_graph t)) (replace_callback id cb ts) =
  replace_callback id cb (filter (fun t => negb (is_graph t)) ts).
Proof.
  intros Hng Hcb. induction ts as [|t ts IH]; [reflexivity|].
  assert (IH' := IH (fun u Hu => Hng u (or_intror Hu))).
  assert (Hnew : forall d, is_graph (mkTimer id d cb) = false)
    by (intros d; unfold is_graph; cbn; now destruct cb).
  unfold replace_callback in *. cbn [map filter].
  destruct (Nat.eqb (timer_id t) id) eqn:E.
  - apply Nat.eqb_eq in E as E'.
    rewrite Hnew, (Hng t (or_introl eq_refl) E'). cbn [negb map].
    rewrite E. f_equal. exact IH'.
  - destruct (is_graph t); cbn [negb map]; [exact IH'|].
    rewrite E. f_equal. exact IH'.
Qed.

Lemma run_inv_frame scenario events shown ph s s' :
  timers s' = timers s -> next_timer s' = next_timer s ->
  simulationRunning s' = simulationRunning s -> start_label s' = start_label s ->
  simulation_log s' = simulation_log s -> defense_tbody s' = defense_tbody s ->
  event_counter s' = event_counter s -> reports s' = reports s ->
  run_inv scenario events shown ph s -> run_inv scenario events shown ph s'.
Proof.
  intros Ht Hn Hr Hl Hlog Htb Hc Hrep [W T R L LG TB C RP].
  constructor; try congruence.
  - eapply wf_frame; eauto.
  - unfold run_timers. now rewrite Ht.
  - destruct ph; now rewrite Hrep.
Qed.

(** [runSimulation] on a ready page opens the [Playing 0] phase. *)
Lemma run_inv_runSimulation_events scenario events s :
  ready s ->
  run_inv scenario events (reports s) (Playing 0) (runSimulation_events events scenario s) /\
  fuel (runSimulation_events events scenario s)
  <= fuel s + (2 + length events) + length (scenario_transitions scenario).
Proof.
  intros (W & T & R & L & LG & TB & C).
  unfold runSimulation_events, updateNetworkForScenario.
  assert (Hrun : run_timers (setTimer (IntervalTick events 0 0) 500 s)
                 = [mkTimer (next_timer s) 500 (IntervalTick events 0 0)]).
  { unfold run_timers, setTimer. cbn. rewrite filter_app. fold (run_timers s).
    rewrite T. reflexivity. }
  assert (Hfuel : fuel (setTimer (IntervalTick events 0 0) 500 s)
                  = fuel s + (2 + length events)).
  { unfold fuel, setTimer. cbn. rewrite weight_app. cbn. lia. }
  assert (Hbase : run_inv scenario events (reports s) (Playing 0)
                    (setTimer (IntervalTick events 0 0) 500 s)).
  { constructor; [now apply wf_setTimer | | exact R | exact L | exact LG | exact TB
                  | exact C | reflexivity].
    rewrite Hrun. exists (next_timer s), 500%N. split; [reflexivity | apply Nat.le_0_l]. }
  cbn [networkInstance setTimer set_next_timer set_timers].
  destruct (networkInstance s); [|split; [exact Hbase | lia]].
  split.
  - destruct Hbase as [W' T' R' L' LG' TB' C' RP'].
    constructor; try (rewrite arm_transitions_eq; assumption).
    + now apply wf_arm_transitions.
    + rewrite arm_transitions_eq. unfold run_timers. cbn [timers set_next_timer set_timers].
      rewrite filter_app, graph_timers_all_graph, app_nil_r. exact T'.
  - rewrite arm_transitions_eq. unfold fuel at 1. cbn [timers set_next_timer set_timers].
    rewrite weight_app, graph_timers_weight. fold (fuel (setTimer (IntervalTick events 0 0) 500 s)).
    lia.
Qed.

(** A click on the start button of an idle page opens the [Loading]
    phase. *)
Lemma run_inv_startSimulation s :
  wf s -> idle s -> selected_values (target_select s) <> [] ->
  run_inv (value (scenario_select s)) (getScenarioEvents (value (scenario_select s)))
          (reports s) Loading (startSimulation s).
Proof.
  intros W (R & D & T) Hsel. unfold startSimulation. rewrite R.
  destruct (selected_values (target_select s)) as [|tg tgs] eqn:E; [contradiction|].
  set (p := initNetworkVisualization _).
  assert (Hp : timers p = timers s /\ next_timer p = next_timer s /\
               simulationRunning p = false /\ start_label p = StartingLabel /\
               simulation_log p = [LogPlaceholder] /\ defense_tbody p = [RowPlaceholder] /\
               event_counter p = 0 /\ reports p = reports s).
  { subst p. unfold initNetworkVisualization. cbn.
    destruct (networkInstance s); cbn; repeat split; assumption. }
  destruct Hp as (Pt & Pn & Pr & Pl & Plog & Ptb & Pc & Prep).
  constructor; cbn; try assumption.
  - apply wf_setTimer. eapply wf_frame; eauto.
  - unfold run_timers, setTimer. cbn. rewrite Pt, filter_app. fold (run_timers s).
    rewrite T. cbn. now repeat eexists.
Qed.

Lemma run_inv_clear_graph scenario events shown ph s t :
  run_inv scenario events shown ph s -> In t (timers s) -> is_graph t = true ->
  run_inv scenario events shown ph (clearTimer (timer_id t) s).
Proof.
  intros [W T R L LG TB C RP] Hin G.
  constructor; try assumption; [now apply wf_clearTimer|].
  rewrite run_timers_remove, remove_id_absent; [exact T|].
  intros Hid. unfold ids in Hid. apply in_map_iff in Hid.
  destruct Hid as [u [Eu Hu]]. unfold run_timers in Hu. apply filter_In in Hu.
  destruct Hu as [Hu Gu].
  assert (u = t) by (eapply NoDup_ids_inj; [exact (proj1 W) | | | ]; eassumption).
  subst u. rewrite G in Gu. discriminate.
Qed.

Lemma fuel_clear s t :
  wf s -> In t (timers s) -> fuel (clearTimer (timer_id t) s) + weight t = fuel s.
Proof. intros [Hnd _] Hin. unfold fuel. cbn. now apply weight_remove. Qed.

(** One firing of a pending timer: the run stays in its phase or moves to
    the next one, at most one event is delivered, and the fuel goes
    down. *)
Lemma run_inv_fire scenario events shown ph s id r1 r2 s' :
  run_inv scenario events shown ph s -> fire id r1 r2 s = Some s' ->
  exists ph',
    run_inv scenario events shown ph' s' /\ fuel s' < fuel s /\
    delivered events ph <= delivered events ph' <= S (delivered events ph).
Proof.
  intros H. unfold fire.
  destruct (find _ (timers s)) as [t|] eqn:F; [|discriminate].
  intros [= <-]. apply find_id in F. destruct F as [Hin Hid]. subst id.
  pose proof (ri_wf H) as W.
  pose proof (fuel_clear t W Hin) as Hfuel.
  destruct (is_graph t) eqn:G.
  - (* a timeout of the network visualization *)
    unfold run_callback, is_interval. unfold is_graph in G. unfold weight in Hfuel.
    destruct (callback t) as [| | |body] eqn:Cb; try discriminate.
    exists ph. split; [|split; [|lia]].
    + assert (G' : is_graph t = true) by (unfold is_graph; now rewrite Cb).
      pose proof (run_inv_clear_graph t H Hin G') as H1.
      unfold graph_timeout. destruct (networkInstance _); [|exact H1].
      revert H1. apply run_inv_frame; reflexivity.
    + unfold graph_timeout.
      destruct (networkInstance _);
        [change (fuel (clearTimer (timer_id t) s) < fuel s) | ]; lia.
  - (* a timer of the run *)
    assert (Hrun : In t (run_timers s)).
    { unfold run_timers. apply filter_In. split; [exact Hin | now rewrite G]. }
    destruct H as [_ T R L LG TB C RP].
    destruct ph as [|i| |]; cbn [phase_timers] in T.
    + (* Loading: the start timeout *)
      destruct T as (id & d & df & tg & T & Hev). rewrite T in Hrun.
      destruct Hrun as [<-|[]]. cbn [timer_id] in *.
      unfold run_callback, is_interval. cbn [callback].
      unfold start_timeout, runSimulation. rewrite <- Hev.
      match goal with
      | |- context [runSimulation_events events scenario ?p] => set (p0 := p)
      end.
      assert (Hready : ready p0).
      { subst p0. repeat split; try assumption.
        - apply (wf_clearTimer id W).
        - apply (wf_clearTimer id W).
        - change (run_timers (clearTimer id s) = []).
          rewrite run_timers_remove, T. cbn. now rewrite Nat.eqb_refl. }
      destruct (run_inv_runSimulation_events scenario events Hready) as [H0 F0].
      exists (Playing 0). split; [|split; [|cbn; lia]].
      * assert (Hshown : reports p0 = shown) by exact RP.
        rewrite Hshown in H0. revert H0. apply run_inv_frame; reflexivity.
      * unfold showToast, fuel at 1. cbn [timers set_toasts].
        fold (fuel (runSimulation_events events scenario p0)).
        assert (fuel p0 = fuel (clearTimer id s)) by reflexivity.
        unfold weight in Hfuel. cbn [callback] in Hfuel. rewrite <- Hev in Hfuel. lia.
    + (* Playing: the delivery interval *)
      destruct T as (id & d & T & Hi). rewrite T in Hrun.
      destruct Hrun as [<-|[]]. cbn [timer_id] in *.
      unfold run_callback, is_interval. cbn [callback timer_id].
      unfold interval_tick. rewrite R. cbn [phase_running negb].
      destruct (nth_error events i) as [e|] eqn:E.
      * exists (Playing (S i)).
        assert (Hlt : i < length events) by (apply nth_error_Some; congruence).
        split; [|split; [|cbn; lia]].
        -- assert (Hadd : forall p, timers (addSimulationEvent e i p) = timers p /\
                                     next_timer (addSimulationEvent e i p) = next_timer p).
           { intros p. unfold addSimulationEvent. now destruct (recorded e). }
           constructor.
           ++ apply wf_set_callback. eapply wf_frame; [| | exact W]; apply Hadd.
           ++ unfold run_timers, set_callback. cbn [timers set_timers set_event_counter].
              rewrite (proj1 (Hadd s)).
              rewrite run_timers_replace; [| | exact I].
              ** fold (run_timers s). rewrite T. cbn. rewrite Nat.eqb_refl.
                 exists id, d. split; [reflexivity | lia].
              ** intros u Hu Eu.
                 assert (u = mkTimer id d (IntervalTick events i i))
                   by (eapply NoDup_ids_inj; [exact (proj1 W) | | | ]; eassumption).
                 now subst u.
           ++ unfold addSimulationEvent. now destruct (recorded e).
           ++ unfold addSimulationEvent. now destruct (recorded e).
           ++ cbn [delivered]. rewrite (@firstn_snoc _ events i e E), map_app.
              unfold addSimulationEvent. destruct (recorded e); cbn; now rewrite LG.
           ++ cbn [delivered]. rewrite (@firstn_snoc _ events i e E), rows_of_snoc.
              unfold addSimulationEvent. destruct (recorded e).
              ** unfold addDefenseAction. cbn. rewrite TB.
                 apply strip_placeholder, rows_of_records.
              ** cbn. now rewrite app_nil_r.
           ++ reflexivity.
           ++ unfold addSimulationEvent. now destruct (recorded e).
        -- pose proof (@weight_replace _ (IntervalTick events (S i) (S i)) _ (proj1 W) Hin) as Hw.
           cbn [timer_id delay] in Hw.
           assert (W1 : weight (mkTimer id d (IntervalTick events i i))
                        = 2 + (length events - i)) by reflexivity.
           assert (W2 : weight (mkTimer id d (IntervalTick events (S i) (S i)))
                        = 2 + (length events - S i)) by reflexivity.
           rewrite W1, W2 in Hw.
           unfold fuel at 1, set_callback. cbn [timers set_timers set_event_counter].
           replace (timers (addSimulationEvent e i s)) with (timers s)
             by (unfold addSimulationEvent; now destruct (recorded e)).
           unfold fuel. lia.
      * assert (Hi' : i = length events) by (apply nth_error_None in E; lia).
        exists Finishing. split; [|split; [|cbn; lia]].
        -- constructor; try assumption.
           ++ apply wf_setTimer, wf_clearTimer, W.
           ++ unfold run_timers, setTimer. cbn [timers set_timers set_next_timer].
              rewrite filter_app. fold (run_timers (clearTimer id s)).
              rewrite run_timers_remove, T. cbn. rewrite Nat.eqb_refl. cbn.
              now repeat eexists.
           ++ cbn [delivered] in *. now rewrite <- Hi'.
           ++ cbn [delivered] in *. now rewrite <- Hi'.
           ++ cbn [delivered] in *. now rewrite <- Hi'.
        -- unfold fuel at 1, setTimer. cbn [timers set_timers set_next_timer].
           rewrite weight_app. fold (fuel (clearTimer id s)).
           change (weight (mkTimer id d (IntervalTick events i i)))
             with (2 + (length events - i)) in Hfuel.
           match goal with
           | |- _ + list_sum ?l < _ => change (list_sum l) with 1
           end.
           lia.
    + (* Finishing: the completion timeout *)
      destruct T as (id & d & T). rewrite T in Hrun.
      destruct Hrun as [<-|[]]. cbn [timer_id] in *.
      unfold run_callback, is_interval. cbn [callback].
      exists Completed. split; [|split; [|cbn; lia]].
      * constructor; try assumption; try reflexivity.
        -- apply (wf_clearTimer id W).
        -- change (run_timers (clearTimer id s) = []).
           rewrite run_timers_remove, T. cbn. now rewrite Nat.eqb_refl.
        -- eexists. cbn. rewrite RP. reflexivity.
      * change (fuel (clearTimer id s) < fuel s).
        unfold weight in Hfuel. cbn [callback] in Hfuel. lia.
    + (* Completed: no timer of the run is left *)
      rewrite T in Hrun. destruct Hrun.
Qed.

(** An uninterrupted stretch of timer firings. *)
Lemma run_inv_exec scenario events shown acts :
  forall ph s s',
    forallb is_fire acts = true ->
    run_inv scenario events shown ph s -> exec acts s = Some s' ->
    exists ph',
      run_inv scenario events shown ph' s' /\
      length acts + fuel s' <= fuel s /\
      delivered events ph <= delivered events ph'.
Proof.
  induction acts as [|a acts IH]; intros ph s s' Hf H; cbn [exec].
  - intros [= <-]. exists ph. split; [exact H | cbn; lia].
  - cbn [forallb] in Hf. apply andb_true_iff in Hf. destruct Hf as [Ha Hf].
    destruct a as [| | | | | |id r1 r2]; try discriminate. cbn [step].
    destruct (fire id r1 r2 s) as [s1|] eqn:E; [|discriminate].
    destruct (@run_inv_fire _ _ _ _ _ _ _ _ _ H E) as (ph1 & H1 & F1 & D1).
    intros Hex. destruct (IH ph1 s1 s' Hf H1 Hex) as (ph' & H' & F' & D').
    exists ph'. split; [exact H' | cbn [length]; lia].
Qed.

(** Only a completed run has no timer of its own pending. *)
Lemma run_inv_settled scenario events shown ph s :
  run_inv scenario events shown ph s -> run_timers s = [] -> ph = Completed.
Proof.
  intros H E. pose proof (ri_timers H) as T. rewrite E in T.
  destruct ph; cbn in T; [| | |reflexivity].
  - destruct T as (? & ? & ? & ? & T & _). discriminate.
  - destruct T as (? & ? & T & _). discriminate.
  - destruct T as (? & ? & T). discriminate.
Qed.

Lemma run_inv_completed scenario events shown s :
  run_inv scenario events shown Completed s ->
  completed s /\
  simulation_log s = LogPlaceholder :: map log_item events /\
  defense_tbody s = tbody_of (rows_of events) /\
  event_counter s = length events /\
  exists rep, reports s = shown ++ [rep].
Proof.
  intros [W T R L LG TB C RP]. cbn [delivered] in *. rewrite firstn_all in *.
  repeat split; assumption.
Qed.

Lemma fire_head s t ts r1 r2 :
  timers s = t :: ts -> exists s', fire (timer_id t) r1 r2 s = Some s'.
Proof.
  intros E. unfold fire. rewrite E. cbn. rewrite Nat.eqb_refl. eauto.
Qed.

(** Firing the pending timers one after the other empties the table
    within [fuel] firings. *)
Lemma drain_spec scenario events shown r1 r2 n :
  forall ph s,
    run_inv scenario events shown ph s -> fuel s <= n ->
    forallb is_fire (fst (drain n r1 r2 s)) = true /\
    exec (fst (drain n r1 r2 s)) s = Some (snd (drain n r1 r2 s)) /\
    timers (snd (drain n r1 r2 s)) = [].
Proof.
  induction n as [|n IH]; intros ph s H Hn.
  - assert (E : timers s = []) by (apply fuel_zero; lia).
    cbn. repeat split. exact E.
  - cbn [drain]. destruct (timers s) as [|t ts] eqn:E; [now repeat split|].
    destruct (@fire_head s t ts r1 r2 E) as [s1 F]. rewrite F.
    destruct (@run_inv_fire _ _ _ _ _ _ _ _ _ H F) as (ph1 & H1 & F1 & _).
    assert (Hn1 : fuel s1 <= n) by lia.
    destruct (IH ph1 s1 H1 Hn1) as (A & B & C).
    destruct (drain n r1 r2 s1) as [acts s2]. cbn [fst snd] in *.
    repeat split; [exact A | | exact C].
    cbn [exec step]. rewrite F. exact B.
Qed.

Lemma event_items_of_script l :
  filter is_event_item (LogPlaceholder :: map log_item l) = map log_item l.
Proof.
  cbn. induction l as [|e l IH]; [reflexivity|]. cbn. now rewrite IH.
Qed.

Lemma run_inv_delivered_le scenario events shown ph s :
  run_inv scenario events shown ph s -> delivered events ph <= length events.
Proof.
  intros H. pose proof (ri_timers H) as T.
  destruct ph; cbn in *; try lia. destruct T as (? & ? & _ & T). exact T.
Qed.

Lemma run_inv_event_log scenario events shown ph s :
  run_inv scenario events shown ph s ->
  event_counter s = delivered events ph /\
  event_counter s <= length events /\
  simulation_log s = LogPlaceholder :: map log_item (firstn (event_counter s) events) /\
  event_log s = map log_item (firstn (event_counter s) events).
Proof.
  intros H. pose proof (run_inv_delivered_le H) as Hle.
  destruct H as [W T R L LG TB C RP].
  unfold event_log. rewrite C, LG, event_items_of_script.
  repeat split. exact Hle.
Qed.

Lemma run_inv_reports scenario events shown ph s :
  run_inv scenario events shown ph s ->
  reports s = shown \/ exists rep, reports s = shown ++ [rep].
Proof.
  intros H. pose proof (ri_reports H) as RP. destruct ph; auto.
Qed.

Lemma click_start_opens_run q :
  reachable q -> idle q -> selected_values (target_select q) <> [] ->
  step ClickStart q = Some (startSimulation q) /\
  run_inv (value (scenario_select q)) (getScenarioEvents (value (scenario_select q)))
          (reports q) Loading (startSimulation q).
Proof.
  intros Hr Hi Hsel. split.
  - cbn [step]. destruct Hi as (_ & D & _). now rewrite D.
  - apply run_inv_startSimulation; [|assumption|assumption].
    exact (pi_wf (reachable_inv Hr)).
Qed.

(** From any phase of a run: some schedule of firings completes it
    within [fuel] firings, no schedule is longer than that, at most one
    report is shown on the way, and once no timer of the run is pending
    the run has completed, with the whole script in the log and exactly
    one report. *)
Lemma run_completes scenario events shown ph s0 :
  run_inv scenario events shown ph s0 ->
  (exists acts s,
      forallb is_fire acts = true /\ length acts <= fuel s0 /\
      exec acts s0 = Some s /\ completed s /\
      exists rep, reports s = shown ++ [rep]) /\
  (forall acts s,
      forallb is_fire acts = true -> exec acts s0 = Some s ->
      length acts <= fuel s0 /\
      (reports s = shown \/ exists rep, reports s = shown ++ [rep]) /\
      (run_timers s = [] ->
       completed s /\ event_log s = map log_item events /\
       defense_ledger s = rows_of events /\
       exists rep, reports s = shown ++ [rep])).
Proof.
  intros H.
  assert (Hall : forall acts s,
      forallb is_fire acts = true -> exec acts s0 = Some s ->
      length acts <= fuel s0 /\
      (reports s = shown \/ exists rep, reports s = shown ++ [rep]) /\
      (run_timers s = [] ->
       completed s /\ event_log s = map log_item events /\
       defense_ledger s = rows_of events /\
       exists rep, reports s = shown ++ [rep])).
  { intros acts s Hf Hex.
    destruct (@run_inv_exec scenario events shown acts ph s0 s Hf H Hex)
      as (ph' & H' & F' & _).
    split; [lia|]. split; [eapply run_inv_reports; exact H'|].
    intros Hq. pose proof (run_inv_settled H' Hq) as ->.
    destruct (run_inv_completed H') as (Hc & Hlog & Htb & _ & Hrep).
    repeat split; try apply Hc; try exact Hrep.
    - unfold event_log. rewrite Hlog. apply event_items_of_script.
    - unfold defense_ledger. rewrite Htb. apply ledger_filter, rows_of_records. }
  split; [|exact Hall].
  destruct (@drain_spec scenario events shown 0%Z 0%Z (fuel s0) ph s0 H (le_n _))
    as (A & B & C).
  exists (fst (drain (fuel s0) 0 0 s0)), (snd (drain (fuel s0) 0 0 s0)).
  destruct (Hall _ _ A B) as (Hlen & _ & Hdone).
  assert (Hq : run_timers (snd (drain (fuel s0) 0 0 s0)) = [])
    by (unfold run_timers; now rewrite C).
  destruct (Hdone Hq) as (Hc & _ & _ & Hrep).
  repeat split; try assumption; apply Hc.
Qed.

Lemma defense_events_of_event_log s :
  defense_events s = filter is_defense_item (event_log s).
Proof.
  unfold defense_events, event_log.
  induction (simulation_log s) as [|c l IH]; [reflexivity|].
  destruct c as [|t cl ty m]; cbn; [exact IH|].
  destruct (String.eqb cl "event-type-defense"); now rewrite IH.
Qed.

Lemma startSimulation_valid s :
  simulationRunning s = false -> selected_values (target_select s) <> [] ->
  startSimulation s =
  setTimer (StartTimeout (value (scenario_select s)) (difficulty_select s)
                         (selected_values (target_select s))) 1500
    (initNetworkVisualization
       (resetSimulationLogs (set_start_label StartingLabel (set_start_disabled true s)))).
Proof.
  intros R Hsel. unfold startSimulation. rewrite R.
  destruct (selected_values (target_select s)); [contradiction | reflexivity].
Qed.


End RunFacts.

Example round_ties_to_even :
  Float64.round (2 ^ 53 + 1) = (2 ^ 53)%Z /\
  Float64.round (2 ^ 53 + 3) = (2 ^ 53 + 4)%Z /\
  Float64.round (2 ^ 54 + 2) = (2 ^ 54)%Z /\
  Float64.round (2 ^ 54 + 3) = (2 ^ 54 + 4)%Z /\
  Float64.round (2 ^ 53 - 1) = (2 ^ 53 - 1)%Z.
Proof. repeat split; vm_compute; reflexivity. Qed.

(** The double [(2^57 - 2) / 30 * 2^-53] times 30 is [16 - 2^-52] exactly,
    which rounds to 16: the computed score is one more than the floor of
    the exact product. *)
Example rounding_changes_the_floor :
  let r := ((2 ^ 57 - 2) / 30 * 2 ^ (1074 - 53))%Z in
  Float64.is_random r /\ defenseScore r = 81%Z /\ defenseScore_exact r = 80%Z.
Proof. vm_compute. repeat split; congruence. Qed.

(** C8. For all values the two [Math.random()] calls can return, the report
    appended by [simulationCompleted] has a defense score between 65 and 95
    and an attack score between 20 and 70, both ends included; the same
    holds of the two scores computed in exact arithmetic. *)
Theorem C8_scores_within_ranges (r1 r2 : Z) (s : Page) :
  Float64.is_random r1 -> Float64.is_random r2 ->
  exists rep,
    reports (simulationCompleted r1 r2 s) = reports s ++ [rep] /\
    (65 <= result_defense_score rep <= 95)%Z /\
    (20 <= result_attack_score rep <= 70)%Z /\
    (65 <= defenseScore_exact r1 <= 95)%Z /\
    (20 <= attackScore_exact r2 <= 70)%Z.
Proof.
  intros H1 H2.
  eexists. split; [reflexivity|]. cbn [result_defense_score result_attack_score].
  assert (B30 : (0 < 30 <= 2 ^ Float64.precision)%Z) by (vm_compute; split; congruence).
  assert (B50 : (0 < 50 <= 2 ^ Float64.precision)%Z) by (vm_compute; split; congruence).
  pose proof (Float64Facts.floor_mul_range B30 H1).
  pose proof (Float64Facts.floor_mul_range B50 H2).
  pose proof (Float64Facts.exact_floor_range (proj1 B30) H1).
  pose proof (Float64Facts.exact_floor_range (proj1 B50) H2).
  unfold defenseScore, attackScore, defenseScore_exact, attackScore_exact.
  lia.
Qed.

Lemma C8_scores_within_ranges_witness :
  exists rep,
    reports (simulationCompleted (2 ^ 1073) (2 ^ 1072) initial_page) = [] ++ [rep] /\
    (65 <= result_defense_score rep <= 95)%Z /\
    (20 <= result_attack_score rep <= 70)%Z /\
    (65 <= defenseScore_exact (2 ^ 1073) <= 95)%Z /\
    (20 <= attackScore_exact (2 ^ 1072) <= 70)%Z.
Proof.
  apply (@C8_scores_within_ranges (2 ^ 1073) (2 ^ 1072) initial_page);
    vm_compute; split; congruence.
Defined.

(** C7. On a page whose simulation is not running, [startSimulation] with
    no target selected only shows the Validation Error toast: the running
    flag stays false, the start button keeps its label, no timer is armed,
    and the event log, the defense table and the network are what they
    were. *)
Theorem C7_empty_targets_rejected (s : Page) :
  simulationRunning s = false ->
  selected_values (target_select s) = [] ->
  startSimulation s =
    showToast "Please select at least one target system." "Validation Error" "warning" s /\
  simulationRunning (startSimulation s) = false /\
  start_label (startSimulation s) = start_label s /\
  timers (startSimulation s) = timers s /\
  simulation_log (startSimulation s) = simulation_log s /\
  defense_tbody (startSimulation s) = defense_tbody s /\
  event_counter (startSimulation s) = event_counter s /\
  reports (startSimulation s) = reports s /\
  networkInstance (startSimulation s) = networkInstance s.
Proof.
  intros Hrun Hsel. unfold startSimulation. rewrite Hrun, Hsel.
  cbn. rewrite Hrun. repeat split.
Qed.

Lemma C7_empty_targets_rejected_witness :
  startSimulation initial_page =
    showToast "Please select at least one target system." "Validation Error" "warning"
      initial_page /\
  simulationRunning (startSimulation initial_page) = false /\
  start_label (startSimulation initial_page) = start_label initial_page /\
  timers (startSimulation initial_page) = timers initial_page /\
  simulation_log (startSimulation initial_page) = simulation_log initial_page /\
  defense_tbody (startSimulation initial_page) = defense_tbody initial_page /\
  event_counter (startSimulation initial_page) = event_counter initial_page /\
  reports (startSimulation initial_page) = reports initial_page /\
  networkInstance (startSimulation initial_page) = networkInstance initial_page.
Proof.
  apply (@C7_empty_targets_rejected initial_page); reflexivity.
Defined.

(** C10. Pausing twice leaves the page as pausing once does: the running
    flag is false, the button reads Resume, and every other part of the
    page, the pending timers with their cursors included, is the one of the
    first pause, which itself left log, table, network and timers alone.
    Only the toast is shown once per call. *)
Theorem C10_pause_idempotent (s : Page) :
  without_toasts (pauseSimulation (pauseSimulation s)) = without_toasts (pauseSimulation s) /\
  simulationRunning (pauseSimulation (pauseSimulation s)) = false /\
  start_label (pauseSimulation (pauseSimulation s)) = ResumeSimulationLabel /\
  timers (pauseSimulation (pauseSimulation s)) = timers s /\
  timers (pauseSimulation s) = timers s /\
  simulation_log (pauseSimulation s) = simulation_log s /\
  defense_tbody (pauseSimulation s) = defense_tbody s /\
  networkInstance (pauseSimulation s) = networkInstance s.
Proof.
  repeat split.
Qed.

(** ** Claims about a run *)

(** C5. The code does not keep the delivery of a run to its script once
    an earlier run has been reset.  Reset leaves the delivery interval of
    the run it ends pending, and the start timeout of the next run sets
    [simulationRunning] again, so the old interval plays its script beside
    the new one.  On [reset_page], a reachable page that is not running, has
    an empty event log and an enabled start button, the run [second_run],
    with no user action after the click on Start, appends every event of
    the ransomware script twice: the first event is in the log twice after
    one tick of each interval, and the log has 32 events for a script of 16
    when no timer of a run is pending any more. *)
Theorem C5_leftover_interval_duplicates_events :
  let first_ticks := after (firstn 4 second_run) reset_page in
  let s := after second_run reset_page in
  reachable reset_page /\
  simulationRunning reset_page = false /\
  start_disabled reset_page = false /\
  event_log reset_page = [] /\
  value (scenario_select reset_page) = "ransomware" /\
  filter is_interval (timers reset_page)
  = [mkTimer 2 500 (IntervalTick ransomware_events 0 0)] /\
  forallb is_fire (tl second_run) = true /\
  exec second_run reset_page = Some s /\
  event_log first_ticks
  = map log_item (firstn 1 ransomware_events ++ firstn 1 ransomware_events) /\
  run_timers s = [] /\
  event_log s = flat_map (fun e => [log_item e; log_item e]) ransomware_events /\
  length (event_log s) = 32 /\
  length (getScenarioEvents "ransomware") = 16 /\
  event_log s <> map log_item (getScenarioEvents "ransomware").
Proof.
  cbv zeta. split.
  { exists [ToggleTarget "endpoints"; ClickStart; Fire 1 0 0; ClickReset].
    vm_compute. reflexivity. }
  repeat (split; [vm_compute; reflexivity|]).
  intros H. vm_compute in H. discriminate H.
Qed.

Lemma endpoints_page_reachable : reachable endpoints_page.
Proof. exists [ToggleTarget "endpoints"]. reflexivity. Qed.

Lemma endpoints_page_idle : idle endpoints_page.
Proof. vm_compute. repeat split. Qed.

(** C9. The code does not complete a run exactly once when an earlier run
    has been reset and its delivery interval is still pending: on
    [reset_page] the run [second_run], with no pause and no other user
    action after the click on Start, ends with two completion timeouts
    pending, one armed by each interval.  The first to fire ends the run and shows a report while
    the second is still pending; the second calls [simulationCompleted]
    again and shows a second report. *)
Theorem C9_leftover_interval_completes_twice :
  let ticked := after (removelast (removelast second_run)) reset_page in
  let once := after (removelast second_run) reset_page in
  let s := after second_run reset_page in
  reports reset_page = [] /\
  forallb is_fire (tl second_run) = true /\
  exec second_run reset_page = Some s /\
  map callback (run_timers ticked) = [CompletionTimeout; CompletionTimeout] /\
  reports ticked = [] /\
  simulationRunning once = false /\
  start_label once = StartNewSimulationLabel /\
  length (reports once) = 1 /\
  map callback (run_timers once) = [CompletionTimeout] /\
  completed s /\
  length (reports s) = 2.
Proof.
  cbv zeta. repeat (split; [vm_compute; reflexivity|]).
  split; [|vm_compute; reflexivity].
  vm_compute. repeat split.
Qed.

Lemma ready_page_ready : ready ready_page.
Proof. repeat split; constructor. Qed.

(** C6. On every reachable page the defense ledger is no longer than the
    event log, and its records are, one for one and in order, the
    delivered events of category defense: each record carries the time of
    its event and the attack vector inferred from its message. *)
Theorem C6_ledger_matches_defense_events (s : Page) :
  reachable s ->
  length (defense_ledger s) <= length (event_log s) /\
  length (defense_ledger s) = length (defense_events s) /\
  Forall2 from_defense_event (defense_events s) (defense_ledger s).
Proof.
  intros Hr. destruct (pi_ledger (reachable_inv Hr)) as (rows & Htb & Hrows).
  assert (E : defense_ledger s = rows).
  { unfold defense_ledger. rewrite Htb.
    apply ledger_filter. eapply ledger_rows_are_records. exact Hrows. }
  rewrite E. pose proof (Forall2_length Hrows) as Hlen.
  split; [|split; [now symmetry | exact Hrows]].
  rewrite <- Hlen. unfold defense_events, event_log.
  apply filter_sublength. intros [|t c u m]; [discriminate | reflexivity].
Qed.

Lemma C6_ledger_matches_defense_events_witness :
  exists s,
    exec [ToggleTarget "endpoints"; ClickStart; Fire 1 0 0; Fire 2 0 0; Fire 2 0 0]
         initial_page = Some s /\
    length (defense_ledger s) <= length (event_log s) /\
    length (defense_ledger s) = length (defense_events s) /\
    Forall2 from_defense_event (defense_events s) (defense_ledger s).
Proof.
  eexists. split; [vm_compute; reflexivity|].
  apply C6_ledger_matches_defense_events.
  exists [ToggleTarget "endpoints"; ClickStart; Fire 1 0 0; Fire 2 0 0; Fire 2 0 0].
  vm_compute. reflexivity.
Defined.

(** C1 (as amended). A ransomware run played to the end delivers exactly 16
    events, exactly 8 of which are defense events, each with its row in the
    defense table; and the attack-vector inference answers Lateral Movement
    for every message that contains the lower-case substring
    [lateral movement] and none of the four keywords tested before it. *)
Theorem C1_ransomware_run (q s : Page) (acts : list Action) :
  reachable q -> idle q -> selected_values (target_select q) <> [] ->
  value (scenario_select q) = "ransomware" ->
  forallb is_fire acts = true ->
  exec (ClickStart :: acts) q = Some s -> run_timers s = [] ->
  length (event_log s) = 16 /\
  length (defense_events s) = 8 /\
  length (defense_ledger s) = 8 /\
  forall msg,
    Js.includes msg "lateral movement" = true -> reaches_lateral_rule msg ->
    determineAttackVector msg = "Lateral Movement".
Proof.
  intros Hr Hi Hsel Hk Hf Hex Hq.
  destruct (click_start_opens_run Hr Hi Hsel) as [Hstep H0].
  cbn [exec] in Hex. rewrite Hstep in Hex. rewrite Hk in H0.
  destruct (run_completes H0) as [_ Hall].
  destruct (Hall acts s Hf Hex) as (_ & _ & Hdone).
  destruct (Hdone Hq) as (_ & Hlog & Hled & _).
  rewrite defense_events_of_event_log, Hlog, Hled.
  repeat split.
  intros msg Hm (H1 & H2 & H3 & H4). unfold determineAttackVector.
  now rewrite H1, H2, H3, H4, Hm.
Qed.

Lemma C1_ransomware_run_witness :
  length (event_log (after ransomware_schedule endpoints_page)) = 16 /\
  length (defense_events (after ransomware_schedule endpoints_page)) = 8 /\
  length (defense_ledger (after ransomware_schedule endpoints_page)) = 8 /\
  forall msg,
    Js.includes msg "lateral movement" = true -> reaches_lateral_rule msg ->
    determineAttackVector msg = "Lateral Movement".
Proof.
  apply (@C1_ransomware_run endpoints_page (after ransomware_schedule endpoints_page)
           (tl ransomware_schedule)).
  - exact endpoints_page_reachable.
  - exact endpoints_page_idle.
  - intros H. vm_compute in H. discriminate H.
  - reflexivity.
  - reflexivity.
  - vm_compute. reflexivity.
  - vm_compute. reflexivity.
Defined.

(** C1, as stated, fails on the ransomware run: 8 of the 16 delivered
    events are defense events, not 7, no delivered message contains
    [lateral movement] in lower case, and the two messages that begin with
    [Lateral movement] are labelled Unknown. *)
Lemma C1_counterexample :
  completed (after ransomware_schedule endpoints_page) /\
  length (event_log (after ransomware_schedule endpoints_page)) = 16 /\
  length (defense_events (after ransomware_schedule endpoints_page)) = 8 /\
  existsb (fun c => Js.includes (item_message_of c) "lateral movement")
          (event_log (after ransomware_schedule endpoints_page)) = false /\
  map (fun e => determineAttackVector (message e))
      (filter (fun e => Js.includes (message e) "Lateral movement") ransomware_events)
  = ["Unknown"; "Unknown"] /\
  ~ (length (event_log (after ransomware_schedule endpoints_page)) = 16 /\
     length (defense_events (after ransomware_schedule endpoints_page)) = 7 /\
     exists c, In c (event_log (after ransomware_schedule endpoints_page)) /\
               Js.includes (item_message_of c) "lateral movement" = true /\
               determineAttackVector (item_message_of c) = "Lateral Movement").
Proof.
  vm_compute. repeat split; try reflexivity.
  intros (_ & H & _). discriminate H.
Qed.





(** C4. The code does not resume: on a ransomware run paused after three
    events, the click on the button that now reads Resume clears the event
    log and the counter and arms a new start timeout; when that has fired,
    the old interval (id 2) goes on from cursor 3 and a second interval (id
    10) plays the script again from index 0, so the log receives the fourth
    event, then the first one again. *)
Theorem C4_resume_restarts_playback :
  let paused :=
    after [ClickStart; Fire 1 0 0; Fire 2 0 0; Fire 2 0 0; Fire 2 0 0; ClickStart]
          endpoints_page in
  let resumed := after [ClickStart] paused in
  let later := after [Fire 2 0 0; Fire 9 0 0; Fire 2 0 0; Fire 10 0 0] resumed in
  simulationRunning paused = false /\
  start_label paused = ResumeSimulationLabel /\
  event_log paused = map log_item (firstn 3 ransomware_events) /\
  event_counter paused = 3 /\
  event_log resumed = [] /\
  event_counter resumed = 0 /\
  start_label resumed = StartingLabel /\
  filter is_interval (timers later)
  = [mkTimer 2 500 (IntervalTick ransomware_events 4 4);
     mkTimer 10 500 (IntervalTick ransomware_events 1 1)] /\
  event_log later
  = map log_item (firstn 1 (skipn 3 ransomware_events) ++ firstn 1 ransomware_events).
Proof. vm_compute. repeat split. Qed.

(** ** Claims about the network *)

(** C2 (as amended). On every reachable page with a network, a reset
    leaves a network with the same nodes and edges in which every
    non-perimeter node is as in the initial network, except that the Admin
    node now has the colour of the [icon] branch; the perimeter nodes (ids 1
    and 2) are as they were before the reset; and every edge has the colour
    #495057 and [dashes] false. *)
Theorem C2_reset_restores_colours (s : Page) (g : Network) :
  reachable s -> networkInstance s = Some g ->
  networkInstance (resetSimulation s) = Some (resetNetwork g) /\
  (forall n, In n (nodes (resetNetwork g)) -> is_perimeter n = false ->
             node_id n <> 6 -> In n initial_nodes) /\
  (forall n, In n (nodes (resetNetwork g)) -> node_id n = 6 -> n = admin_after_reset) /\
  (forall n, In n (nodes g) -> is_perimeter n = true -> In n (nodes (resetNetwork g))) /\
  (forall e, In e (edges (resetNetwork g)) ->
             edge_color e = Some (plain "#495057") /\ edge_dashes e = Some DashesFalse) /\
  map node_key (nodes (resetNetwork g)) = map node_key initial_nodes /\
  map edge_key (edges (resetNetwork g)) = map edge_key initial_edges.
Proof.
  intros Hr Hnet.
  assert (Hg : graph_inv g) by (apply (pi_graph (reachable_inv Hr)); exact Hnet).
  split.
  { unfold resetSimulation, showToast, resetNetworkVisualization. cbn. now rewrite Hnet. }
  clear Hr Hnet s.
  destruct g as [ns es]. destruct Hg as [Hn He]. cbn [nodes edges] in Hn, He.
  do 8 (destruct ns as [|[? ? ? ? ?] ns]; [cbn in Hn; discriminate Hn|]).
  destruct ns; [|cbn in Hn; discriminate Hn].
  cbn in Hn. injection Hn as -> -> -> -> -> -> -> -> -> -> -> -> -> -> -> ->
                           -> -> -> -> -> -> -> -> -> -> -> -> -> -> -> ->.
  do 8 (destruct es as [|[? ? ? ? ? ?] es]; [cbn in He; discriminate He|]).
  destruct es; [|cbn in He; discriminate He].
  cbn in He. injection He as -> -> -> -> -> -> -> -> -> -> -> -> -> -> -> ->
                           -> -> -> -> -> -> -> ->.
  vm_compute resetNetwork. cbn [nodes edges].
  repeat split.
  - intros n Hin Hp H6. cbn in Hin.
    repeat (destruct Hin as [<-|Hin]; [try discriminate Hp; try (now contradiction H6);
                                      cbn; tauto|]).
    contradiction.
  - intros n Hin H6. cbn in Hin.
    repeat (destruct Hin as [<-|Hin]; [try discriminate H6; try reflexivity|]).
    contradiction.
  - intros n Hin Hp. cbn in Hin.
    repeat (destruct Hin as [<-|Hin]; [try discriminate Hp; cbn; tauto|]).
    contradiction.
  - cbn in H. repeat (destruct H as [<-|H]; [reflexivity|]). contradiction.
  - cbn in H. repeat (destruct H as [<-|H]; [reflexivity|]). contradiction.
Qed.

Lemma ddos_then_reset_reachable : reachable (after ddos_then_reset ddos_page).
Proof.
  exists (ChangeScenario (mkOption "ddos" "DDoS Attack") :: ddos_then_reset).
  vm_compute. reflexivity.
Qed.

Lemma C2_reset_restores_colours_witness :
  exists g,
    networkInstance (after ddos_then_reset ddos_page) = Some g /\
    networkInstance (resetSimulation (after ddos_then_reset ddos_page))
    = Some (resetNetwork g) /\
    (forall n, In n (nodes (resetNetwork g)) -> is_perimeter n = false ->
               node_id n <> 6 -> In n initial_nodes) /\
    (forall n, In n (nodes (resetNetwork g)) -> node_id n = 6 -> n = admin_after_reset) /\
    (forall n, In n (nodes g) -> is_perimeter n = true -> In n (nodes (resetNetwork g))) /\
    (forall e, In e (edges (resetNetwork g)) ->
               edge_color e = Some (plain "#495057") /\ edge_dashes e = Some DashesFalse) /\
    map node_key (nodes (resetNetwork g)) = map node_key initial_nodes /\
    map edge_key (edges (resetNetwork g)) = map edge_key initial_edges.
Proof.
  destruct (networkInstance (after ddos_then_reset ddos_page)) as [g|] eqn:E.
  - exists g. split; [reflexivity|].
    exact (@C2_reset_restores_colours _ g ddos_then_reset_reachable E).
  - vm_compute in E. discriminate E.
Defined.

(** C2, as stated, fails: a reset 9 seconds into a DDoS run leaves the
    first edge at width 6, which the initial network does not have, and
    leaves the Internet and Firewall nodes in their attack colours; the
    network is not the initial one. *)
Lemma C2_counterexample :
  networkInstance (after ddos_then_reset ddos_page) <> Some initial_network /\
  option_map (fun g => map edge_width (edges g))
             (networkInstance (after ddos_then_reset ddos_page))
  = Some [Some 6; None; None; None; None; None; None; None] /\
  map edge_width initial_edges = [None; None; None; None; None; None; None; None] /\
  option_map (fun g => map node_color (firstn 2 (nodes g)))
             (networkInstance (after ddos_then_reset ddos_page))
  = Some [Some (mkNodeColor "#dc3545" "#b02a37"); Some underAttackStyle] /\
  map node_color (firstn 2 initial_nodes)
  = [Some (mkNodeColor "#6c757d" "#495057"); Some blue].
Proof.
  vm_compute. repeat split. intros H. discriminate H.
Qed.


(** * Further properties of simulation.js *)

(** ** Attack-vector inference *)

Section FirstMatch.

Lemma first_match_hit pre keyword label post msg :
  Js.includes msg keyword = true ->
  (forall k l, In (k, l) pre -> Js.includes msg k = false) ->
  first_match (pre ++ (keyword, label) :: post) msg = label.
Proof.
  intros Hk Hpre. induction pre as [|[k l] pre IH]; cbn.
  - now rewrite Hk.
  - rewrite (Hpre k l (or_introl eq_refl)). apply IH.
    intros k' l' Hin. apply (Hpre k' l'). now right.
Qed.

Lemma first_match_label rules msg :
  first_match rules msg = "Unknown" \/ In (first_match rules msg) (map snd rules).
Proof.
  induction rules as [|[k l] rules IH]; cbn; [now left|].
  destruct (Js.includes msg k); [right; now left|].
  destruct IH as [IH|IH]; [now left | right; now right].
Qed.

Lemma first_match_unknown rules msg :
  ~ In "Unknown" (map snd rules) ->
  (first_match rules msg = "Unknown" <->
   forall k l, In (k, l) rules -> Js.includes msg k = false).
Proof.
  intros Hno. induction rules as [|[k l] rules IH]; cbn.
  - split; [intros _ k l [] | reflexivity].
  - cbn in Hno. assert (Hno' : ~ In "Unknown" (map snd rules)) by tauto.
    specialize (IH Hno'). destruct (Js.includes msg k) eqn:E.
    + split.
      * intros ->. exfalso. apply Hno. now left.
      * intros H. specialize (H k l (or_introl eq_refl)). congruence.
    + rewrite IH. split.
      * intros H k' l' [[= <- <-]|Hin]; [exact E | now apply (H k' l')].
      * intros H k' l' Hin. apply (H k' l'). now right.
Qed.

End FirstMatch.

(** X1. [determineAttackVector] is the top-down, first-match evaluation of
    its ten keyword rules: a keyword that occurs in the message gives its
    label whenever no keyword of an earlier rule occurs, whatever keywords
    of later rules occur; and the answer is always Unknown or one of the ten
    labels. *)
Theorem X1_attack_vector_first_match (msg : string) :
  determineAttackVector msg = first_match attack_vector_rules msg /\
  (forall pre keyword label post,
      attack_vector_rules = pre ++ (keyword, label) :: post ->
      Js.includes msg keyword = true ->
      (forall k l, In (k, l) pre -> Js.includes msg k = false) ->
      determineAttackVector msg = label) /\
  (determineAttackVector msg = "Unknown" \/
   In (determineAttackVector msg) (map snd attack_vector_rules)).
Proof.
  assert (E : determineAttackVector msg = first_match attack_vector_rules msg)
    by reflexivity.
  split; [exact E|]. split.
  - intros pre keyword label post Hsplit Hk Hpre. rewrite E, Hsplit.
    now apply first_match_hit.
  - rewrite E. apply first_match_label.
Qed.

(** X2. [determineAttackVector] answers Unknown exactly for the messages
    that contain none of the ten keywords (the search is case-sensitive). *)
Theorem X2_attack_vector_unknown (msg : string) :
  determineAttackVector msg = "Unknown" <->
  forall keyword label, In (keyword, label) attack_vector_rules ->
                        Js.includes msg keyword = false.
Proof.
  change (determineAttackVector msg) with (first_match attack_vector_rules msg).
  apply first_match_unknown. cbn.
  intros H. repeat (destruct H as [H|H]; [discriminate H|]). exact H.
Qed.

(** ** Scenario catalog *)

(** X3. Whatever scenario key is looked up, [getScenarioEvents] returns a
    script of at least 4 and at most 16 events in which every event of type
    defense has a defense action and an effectiveness and every other event
    has neither. *)
Theorem X3_catalog_scripts_well_formed (scenario : string) :
  4 <= length (getScenarioEvents scenario) <= 16 /\
  forallb event_shape_ok (getScenarioEvents scenario) = true.
Proof.
  destruct (getScenarioEvents_cases scenario) as [-> | [-> | [-> | ->]]];
    (split; [split; apply Nat.leb_le; reflexivity | reflexivity]).
Qed.

Lemma X1_attack_vector_first_match_witness :
  determineAttackVector "SQL injection attempt with exfiltration" = "SQL Injection".
Proof.
  apply (proj1 (proj2 (X1_attack_vector_first_match "SQL injection attempt with exfiltration"))
           (firstn 8 attack_vector_rules) "SQL" "SQL Injection" (skipn 9 attack_vector_rules)).
  - reflexivity.
  - reflexivity.
  - intros k l Hin. cbn in Hin.
    repeat (destruct Hin as [[= <- <-]|Hin]; [reflexivity|]). contradiction.
Defined.

(** ** Scenario names *)

Section ScenarioNames.

Lemma length_append (a b : string) :
  String.length (a ++ b)%string = String.length a + String.length b.
Proof. induction a as [|c a IH]; cbn; [reflexivity | now rewrite IH]. Qed.

Lemma capitalize_length w : String.length (capitalize w) = String.length w.
Proof. now destruct w. Qed.

Lemma split_aux_nonempty sep acc s : Js.split_aux sep acc s <> [].
Proof.
  revert acc. induction s as [|c s IH]; intros acc; cbn; [discriminate|].
  destruct (Ascii.eqb c sep); [discriminate | apply IH].
Qed.

Lemma join_cons sep w x xs :
  Js.join sep (w :: x :: xs) = (w ++ sep ++ Js.join sep (x :: xs))%string.
Proof. reflexivity. Qed.

Lemma format_length s acc :
  String.length (Js.join " " (map capitalize (Js.split_aux "_" acc s)))
  = String.length acc + String.length s.
Proof.
  revert acc. induction s as [|c s IH]; intros acc; cbn [Js.split_aux].
  - cbn. rewrite capitalize_length. lia.
  - destruct (Ascii.eqb c "_").
    + pose proof (split_aux_nonempty "_" EmptyString s) as Hne.
      specialize (IH EmptyString).
      destruct (Js.split_aux "_" EmptyString s) as [|x xs]; [contradiction|].
      cbn [map] in *. rewrite join_cons, !length_append, IH, capitalize_length.
      cbn. lia.
    + rewrite IH, length_append. cbn. lia.
Qed.

Lemma no_underscore_append a b :
  no_underscore a -> no_underscore b -> no_underscore (a ++ b).
Proof.
  unfold no_underscore. induction a as [|c a IH]; cbn; [auto|].
  intros Ha Hb. inversion Ha; subst. constructor; auto.
Qed.

Lemma upper_ascii_not_underscore c : c <> "_"%char -> Js.upper_ascii c <> "_"%char.
Proof.
  intros Hc. unfold Js.upper_ascii.
  destruct (Nat.leb 97 (nat_of_ascii c) && Nat.leb (nat_of_ascii c) 122)%bool eqn:E;
    [|exact Hc].
  apply andb_true_iff in E. destruct E as [E1 E2].
  apply Nat.leb_le in E1, E2. intros H.
  apply (f_equal nat_of_ascii) in H.
  rewrite nat_ascii_embedding in H by lia. cbn in H. lia.
Qed.

Lemma no_underscore_capitalize w : no_underscore w -> no_underscore (capitalize w).
Proof.
  unfold no_underscore. destruct w as [|c w]; cbn; [auto|].
  intros H. inversion H; subst. constructor; [now apply upper_ascii_not_underscore | assumption].
Qed.

Lemma format_no_underscore s acc :
  no_underscore acc ->
  no_underscore (Js.join " " (map capitalize (Js.split_aux "_" acc s))).
Proof.
  revert acc. induction s as [|c s IH]; intros acc Hacc; cbn [Js.split_aux].
  - cbn. now apply no_underscore_capitalize.
  - destruct (Ascii.eqb_spec c "_") as [->|Hc].
    + pose proof (split_aux_nonempty "_" EmptyString s) as Hne.
      specialize (IH EmptyString (Forall_nil _)).
      destruct (Js.split_aux "_" EmptyString s) as [|x xs]; [contradiction|].
      cbn [map] in *. rewrite join_cons.
      apply no_underscore_append; [now apply no_underscore_capitalize|].
      apply no_underscore_append; [|exact IH].
      repeat constructor. discriminate.
    + apply IH. apply no_underscore_append; [exact Hacc|].
      repeat constructor. exact Hc.
Qed.

Lemma append_empty_r (a : string) : (a ++ EmptyString)%string = a.
Proof. induction a as [|c a IH]; cbn; [reflexivity | now rewrite IH]. Qed.

Lemma append_assoc3 (a b c : string) : ((a ++ b) ++ c)%string = (a ++ (b ++ c))%string.
Proof. induction a as [|x a IH]; cbn; [reflexivity | now rewrite IH]. Qed.

(** [split], [map] and [join] together are a single pass over the
    characters. *)
Lemma format_title_case s acc :
  Js.join " " (map capitalize (Js.split_aux "_" acc s))
  = match acc with
    | EmptyString => title_case true s
    | _ => (capitalize acc ++ title_case false s)%string
    end.
Proof.
  revert acc. induction s as [|c s IH]; intros acc; cbn [Js.split_aux title_case].
  - cbn. destruct acc; [reflexivity | now rewrite append_empty_r].
  - destruct (Ascii.eqb c "_") eqn:Ec.
    + pose proof (split_aux_nonempty "_" EmptyString s) as Hne.
      specialize (IH EmptyString).
      destruct (Js.split_aux "_" EmptyString s) as [|x xs]; [contradiction|].
      cbn [map] in *. rewrite join_cons, IH. now destruct acc.
    + rewrite IH. destruct acc as [|a acc].
      * reflexivity.
      * cbn. now rewrite append_assoc3.
Qed.

Lemma get_title_case s :
  forall start k c,
    String.get k s = Some c ->
    String.get k (title_case start s)
    = Some (if Ascii.eqb c "_" then " "%char
            else if match k with
                    | 0 => start
                    | S _ => word_start k s
                    end
                 then Js.upper_ascii c else c).
Proof.
  induction s as [|c0 s IH]; intros start k c; [discriminate|].
  destruct k as [|j]; cbn [String.get title_case].
  - intros [= ->]. now destruct (Ascii.eqb c "_").
  - intros Hget.
    assert (E : String.get j (title_case (Ascii.eqb c0 "_") s)
                = Some (if Ascii.eqb c "_" then " "%char
                        else if word_start (S j) (String c0 s)
                             then Js.upper_ascii c else c)).
    { rewrite (IH (Ascii.eqb c0 "_") j c Hget). destruct j as [|i]; reflexivity. }
    destruct (Ascii.eqb c0 "_"); cbn [String.get]; exact E.
Qed.

End ScenarioNames.

(** X4. For a non-empty scenario id written in ASCII,
    [formatScenarioName] returns a name of the same length that contains no
    underscore, and whose character at each index is a space where the id
    has an underscore, the upper-case form of the id's character where a
    word starts (at index 0 and after an underscore), and the id's character
    everywhere else; for the empty id it returns Unknown. *)
Theorem X4_formatScenarioName_shape (scenarioId : string) :
  is_ascii scenarioId -> scenarioId <> EmptyString ->
  String.length (formatScenarioName scenarioId) = String.length scenarioId /\
  no_underscore (formatScenarioName scenarioId) /\
  (forall k c,
      String.get k scenarioId = Some c ->
      String.get k (formatScenarioName scenarioId)
      = Some (if Ascii.eqb c "_" then " "%char
              else if word_start k scenarioId then Js.upper_ascii c else c)) /\
  formatScenarioName EmptyString = "Unknown".
Proof.
  intros _ Hne. destruct scenarioId as [|c0 rest]; [contradiction|].
  unfold formatScenarioName, Js.split. repeat split.
  - now rewrite format_length.
  - apply format_no_underscore. constructor.
  - intros k c Hget. rewrite format_title_case.
    rewrite (get_title_case (String c0 rest) true k Hget).
    now destruct k.
Qed.

Lemma X4_formatScenarioName_shape_witness :
  String.length (formatScenarioName "data_exfiltration") = String.length "data_exfiltration" /\
  no_underscore (formatScenarioName "data_exfiltration") /\
  (forall k c,
      String.get k "data_exfiltration" = Some c ->
      String.get k (formatScenarioName "data_exfiltration")
      = Some (if Ascii.eqb c "_" then " "%char
              else if word_start k "data_exfiltration" then Js.upper_ascii c else c)) /\
  formatScenarioName EmptyString = "Unknown".
Proof.
  apply X4_formatScenarioName_shape.
  - unfold is_ascii. cbn. repeat constructor.
  - discriminate.
Defined.

(** ** Target selection *)

(** X5. On a page whose target select has the template's five options,
    [updateSimulationOptions] forgets the previous selection and selects
    exactly the targets its [switch] lists for the selected scenario, in
    document order; for a scenario without a case (the template's [custom]
    for one) it leaves no target selected. *)
Theorem X5_updateSimulationOptions_defaults (s : Page) :
  map fst (target_select s) = template_targets ->
  map fst (target_select (updateSimulationOptions s)) = template_targets /\
  selected_values (target_select (updateSimulationOptions s))
  = filter (fun v => existsb (String.eqb v) (scenario_targets (value (scenario_select s))))
           template_targets.
Proof.
  intros H. unfold updateSimulationOptions, scenario_targets.
  cbn [target_select set_target_select].
  destruct (target_select s) as [|[v1 b1] [|[v2 b2] [|[v3 b3] [|[v4 b4] [|[v5 b5] [|? ?]]]]]];
    try discriminate H.
  injection H as -> -> -> -> ->.
  destruct (String.eqb (value (scenario_select s)) "ransomware"); [split; reflexivity|].
  destruct (String.eqb (value (scenario_select s)) "phishing"); [split; reflexivity|].
  destruct (String.eqb (value (scenario_select s)) "ddos"); [split; reflexivity|].
  destruct (String.eqb (value (scenario_select s)) "data_exfiltration"); [split; reflexivity|].
  destruct (String.eqb (value (scenario_select s)) "supply_chain"); split; reflexivity.
Qed.

Lemma X5_updateSimulationOptions_defaults_witness :
  map fst (target_select (updateSimulationOptions endpoints_page)) = template_targets /\
  selected_values (target_select (updateSimulationOptions endpoints_page))
  = filter (fun v => existsb (String.eqb v)
                       (scenario_targets (value (scenario_select endpoints_page))))
           template_targets.
Proof. apply X5_updateSimulationOptions_defaults. reflexivity. Defined.

(** X6. Choosing a scenario that [updateSimulationOptions] has no case for
    empties the target selection, so on a page that is neither running nor
    loading the next click on Start is rejected: it only shows the
    Validation Error toast. *)
Theorem X6_uncased_scenario_then_start_rejected (s : Page) (o : SelectOption) :
  simulationRunning s = false -> start_disabled s = false ->
  scenario_targets (value o) = [] ->
  exec [ChangeScenario o; ClickStart] s
  = Some (showToast "Please select at least one target system." "Validation Error" "warning"
            (updateSimulationOptions (set_scenario_select o s))).
Proof.
  intros R D Hnone. cbn [exec step].
  set (p := updateSimulationOptions (set_scenario_select o s)).
  assert (Hsel : selected_values (target_select p) = []).
  { subst p. unfold updateSimulationOptions, scenario_targets in *.
    cbn [value scenario_select set_scenario_select target_select set_target_select] in *.
    assert (Hclr : selected_values (map (fun x => (fst x, false)) (target_select s)) = []).
    { unfold selected_values. induction (target_select s) as [|x l IH]; [reflexivity | exact IH]. }
    destruct (String.eqb (value o) "ransomware"); [discriminate Hnone|].
    destruct (String.eqb (value o) "phishing"); [discriminate Hnone|].
    destruct (String.eqb (value o) "ddos"); [discriminate Hnone|].
    destruct (String.eqb (value o) "data_exfiltration"); [discriminate Hnone|].
    destruct (String.eqb (value o) "supply_chain"); [discriminate Hnone|].
    exact Hclr. }
  assert (Hd : start_disabled p = false) by exact D.
  assert (Hr : simulationRunning p = false) by exact R.
  rewrite Hd. unfold startSimulation. now rewrite Hr, Hsel.
Qed.

Lemma X6_uncased_scenario_then_start_rejected_witness :
  exec [ChangeScenario (mkOption "custom" "Custom Scenario"); ClickStart] endpoints_page
  = Some (showToast "Please select at least one target system." "Validation Error" "warning"
            (updateSimulationOptions
               (set_scenario_select (mkOption "custom" "Custom Scenario") endpoints_page))).
Proof. apply X6_uncased_scenario_then_start_rejected; reflexivity. Defined.

(** ** Pause and reset *)

Section PauseFacts.

Lemma find_unique ts t :
  NoDup (ids ts) -> In t ts -> find (fun u => Nat.eqb (timer_id u) (timer_id t)) ts = Some t.
Proof.
  intros Hnd Hin. destruct (find _ ts) as [u|] eqn:F.
  - apply find_id in F. destruct F as [Hu Eu]. f_equal.
    eapply NoDup_ids_inj; eassumption.
  - exfalso. apply (find_none _ _ F) in Hin. now rewrite Nat.eqb_refl in Hin.
Qed.

Lemma filter_absorb {A : Type} (f g : A -> bool) (l : list A) :
  (forall x, In x l -> f x = true -> g x = true) ->
  filter f (filter g l) = filter f l.
Proof.
  induction l as [|x l IH]; intros H; [reflexivity|].
  assert (IH' := IH (fun y Hy => H y (or_intror Hy))).
  cbn. destruct (g x) eqn:G; cbn.
  - destruct (f x); now rewrite IH'.
  - destruct (f x) eqn:F; [|exact IH'].
    rewrite (H x (or_introl eq_refl) F) in G. discriminate.
Qed.

Lemma intervals_after_remove ts t :
  NoDup (ids ts) -> In t ts -> is_interval t = false ->
  filter is_interval (remove_id (timer_id t) ts) = filter is_interval ts.
Proof.
  intros Hnd Hin Hni. unfold remove_id. apply filter_absorb.
  intros u Hu Hi. apply negb_true_iff, Nat.eqb_neq. intros E.
  assert (u = t) by (eapply NoDup_ids_inj; eassumption). subst u. congruence.
Qed.

(** One firing on a paused page where only intervals and timeouts of the
    network visualization are pending. *)
Lemma paused_fire id r1 r2 s s' :
  wf s -> simulationRunning s = false ->
  forallb (fun t => is_interval t || is_graph t) (timers s) = true ->
  fire id r1 r2 s = Some s' ->
  (wf s' /\ simulationRunning s' = false /\
   forallb (fun t => is_interval t || is_graph t) (timers s') = true) /\
  simulation_log s' = simulation_log s /\ defense_tbody s' = defense_tbody s /\
  event_counter s' = event_counter s /\ reports s' = reports s /\
  filter is_interval (timers s') = filter is_interval (timers s).
Proof.
  intros W R Hall. unfold fire.
  destruct (find _ (timers s)) as [t|] eqn:F; [|discriminate].
  intros [= <-]. apply find_id in F. destruct F as [Hin <-].
  pose proof Hall as Ht. rewrite forallb_forall in Ht. specialize (Ht t Hin).
  unfold run_callback.
  destruct (callback t) as [| evs n i | | body] eqn:Cb.
  - unfold is_interval, is_graph in Ht. rewrite Cb in Ht. discriminate Ht.
  - assert (Hi : is_interval t = true) by (unfold is_interval; now rewrite Cb).
    rewrite Hi. unfold interval_tick. rewrite R. cbn [negb].
    repeat split; try assumption; apply W.
  - unfold is_interval, is_graph in Ht. rewrite Cb in Ht. discriminate Ht.
  - assert (Hni : is_interval t = false) by (unfold is_interval; now rewrite Cb).
    rewrite Hni.
    assert (Hrm : forallb (fun t0 => is_interval t0 || is_graph t0)
                          (remove_id (timer_id t) (timers s)) = true).
    { unfold remove_id. apply forallb_forall. intros u Hu. apply filter_In in Hu.
      rewrite forallb_forall in Hall. now apply Hall. }
    pose proof (@intervals_after_remove (timers s) t (proj1 W) Hin Hni) as Hint.
    pose proof (wf_clearTimer (timer_id t) W) as W'.
    unfold graph_timeout. destruct (networkInstance _); repeat split; try assumption;
      try apply W'.
Qed.

End PauseFacts.

(** X7. While the simulation is paused and only delivery intervals and
    timeouts of the network visualization are pending, no sequence of timer
    firings delivers an event, touches the defense table or the counter,
    shows a report, or moves the cursor of an interval; the simulation stays
    paused. *)
Theorem X7_pause_suspends_delivery (s s' : Page) (acts : list Action) :
  reachable s -> simulationRunning s = false ->
  forallb (fun t => is_interval t || is_graph t) (timers s) = true ->
  forallb is_fire acts = true -> exec acts s = Some s' ->
  simulationRunning s' = false /\
  simulation_log s' = simulation_log s /\ defense_tbody s' = defense_tbody s /\
  event_counter s' = event_counter s /\ reports s' = reports s /\
  filter is_interval (timers s') = filter is_interval (timers s).
Proof.
  intros Hr. pose proof (pi_wf (reachable_inv Hr)) as W. clear Hr.
  revert s W. induction acts as [|a acts IH]; intros s W R Hall Hf; cbn [exec].
  - intros [= <-]. repeat split. exact R.
  - cbn [forallb] in Hf. apply andb_true_iff in Hf. destruct Hf as [Ha Hf].
    destruct a as [| | | | | |id r1 r2]; try discriminate. cbn [step].
    destruct (fire id r1 r2 s) as [s1|] eqn:E; [|discriminate].
    destruct (@paused_fire _ _ _ _ _ W R Hall E) as ((W1 & R1 & A1) & L1 & T1 & C1 & P1 & I1).
    intros Hex. destruct (IH s1 W1 R1 A1 Hf Hex) as (R2 & L2 & T2 & C2 & P2 & I2).
    repeat split; congruence.
Qed.

Lemma paused_page_reachable : reachable paused_page.
Proof.
  exists [ToggleTarget "endpoints"; ClickStart; Fire 1 0 0; Fire 2 0 0; Fire 2 0 0;
          Fire 2 0 0; ClickStart].
  vm_compute. reflexivity.
Qed.

Lemma X7_pause_suspends_delivery_witness :
  simulationRunning (after [Fire 2 0 0; Fire 3 0 0; Fire 2 0 0] paused_page) = false /\
  simulation_log (after [Fire 2 0 0; Fire 3 0 0; Fire 2 0 0] paused_page)
  = simulation_log paused_page /\
  defense_tbody (after [Fire 2 0 0; Fire 3 0 0; Fire 2 0 0] paused_page)
  = defense_tbody paused_page /\
  event_counter (after [Fire 2 0 0; Fire 3 0 0; Fire 2 0 0] paused_page)
  = event_counter paused_page /\
  reports (after [Fire 2 0 0; Fire 3 0 0; Fire 2 0 0] paused_page) = reports paused_page /\
  filter is_interval (timers (after [Fire 2 0 0; Fire 3 0 0; Fire 2 0 0] paused_page))
  = filter is_interval (timers paused_page).
Proof.
  apply (@X7_pause_suspends_delivery paused_page _ [Fire 2 0 0; Fire 3 0 0; Fire 2 0 0]).
  - exact paused_page_reachable.
  - reflexivity.
  - vm_compute. reflexivity.
  - reflexivity.
  - vm_compute. reflexivity.
Defined.

Section ResetFacts.

Lemma fire_pending s t r1 r2 :
  NoDup (ids (timers s)) -> In t (timers s) ->
  fire (timer_id t) r1 r2 s
  = Some (run_callback t r1 r2 (if is_interval t then s else clearTimer (timer_id t) s)).
Proof. intros Hnd Hin. unfold fire. now rewrite (@find_unique _ _ Hnd Hin). Qed.

Lemma resetSimulation_fields s :
  timers (resetSimulation s) = timers s /\
  reports (resetSimulation s) = reports s /\
  scenario_select (resetSimulation s) = scenario_select s /\
  simulation_log (resetSimulation s) = [LogPlaceholder].
Proof.
  unfold resetSimulation, showToast, resetNetworkVisualization. cbn.
  destruct (networkInstance s); repeat split.
Qed.

Lemma start_timeout_fields scenario difficulty targets p :
  simulationRunning (start_timeout scenario difficulty targets p) = true /\
  start_label (start_timeout scenario difficulty targets p) = PauseSimulationLabel /\
  In (IntervalTick (getScenarioEvents scenario) 0 0)
     (map callback (timers (start_timeout scenario difficulty targets p))).
Proof.
  unfold start_timeout, showToast, runSimulation, runSimulation_events,
    updateNetworkForScenario.
  cbn [networkInstance setTimer set_next_timer set_timers set_simulationRunning
       set_reset_disabled set_start_disabled set_start_label].
  destruct (networkInstance p).
  - rewrite arm_transitions_eq. cbn. repeat split.
    rewrite !map_app. apply in_or_app. left. apply in_or_app. right. now left.
  - cbn. repeat split. rewrite map_app. apply in_or_app. right. now left.
Qed.

Lemma fire_start_timeout p id d scenario difficulty targets r1 r2 :
  NoDup (ids (timers p)) ->
  In (mkTimer id d (StartTimeout scenario difficulty targets)) (timers p) ->
  exists s',
    fire id r1 r2 p = Some s' /\
    simulationRunning s' = true /\ start_label s' = PauseSimulationLabel /\
    In (IntervalTick (getScenarioEvents scenario) 0 0) (map callback (timers s')).
Proof.
  intros Hnd Hin. pose proof (@fire_pending _ _ r1 r2 Hnd Hin) as F.
  cbn [timer_id] in F.
  exists (start_timeout scenario difficulty targets (clearTimer id p)).
  split; [exact F | apply start_timeout_fields].
Qed.

Lemma fire_completion_timeout p id d r1 r2 :
  NoDup (ids (timers p)) -> In (mkTimer id d CompletionTimeout) (timers p) ->
  exists s',
    fire id r1 r2 p = Some s' /\
    reports s'
    = reports p ++ [mkReport (text (scenario_select p)) "1 minute 15 seconds"
                             (defenseScore r1) (attackScore r2)] /\
    simulation_log s' = simulation_log p /\
    start_label s' = StartNewSimulationLabel.
Proof.
  intros Hnd Hin. pose proof (@fire_pending _ _ r1 r2 Hnd Hin) as F.
  cbn [timer_id] in F.
  exists (simulationCompleted r1 r2 (clearTimer id p)).
  split; [exact F | repeat split].
Qed.

End ResetFacts.

(** X8. A click on Reset cancels no timer.  If a start timeout is pending,
    it is still pending after the reset, and when it fires the simulation
    runs, with a fresh delivery interval at the first event of the script;
    if a completion timeout is pending, it still fires after the reset and
    shows a report over the emptied log. *)
Theorem X8_reset_cancels_no_timer (s : Page) (id : nat) (d : N) (r1 r2 : Z) :
  reachable s -> reset_disabled s = false ->
  timers (resetSimulation s) = timers s /\
  (forall scenario difficulty targets,
      In (mkTimer id d (StartTimeout scenario difficulty targets)) (timers s) ->
      exists s',
        exec [ClickReset; Fire id r1 r2] s = Some s' /\
        simulationRunning s' = true /\ start_label s' = PauseSimulationLabel /\
        In (IntervalTick (getScenarioEvents scenario) 0 0) (map callback (timers s'))) /\
  (In (mkTimer id d CompletionTimeout) (timers s) ->
   exists s' rep,
     exec [ClickReset; Fire id r1 r2] s = Some s' /\
     reports s' = reports s ++ [rep] /\ simulation_log s' = [LogPlaceholder] /\
     start_label s' = StartNewSimulationLabel).
Proof.
  intros Hr Hd. pose proof (pi_wf (reachable_inv Hr)) as [Hnd _].
  destruct (resetSimulation_fields s) as (Ht & Hrep & Hsel & Hlog).
  assert (Hexec : forall s', fire id r1 r2 (resetSimulation s) = Some s' ->
                             exec [ClickReset; Fire id r1 r2] s = Some s').
  { intros s' F. cbn [exec step]. rewrite Hd, F. reflexivity. }
  revert Ht Hrep Hsel Hlog Hexec. generalize (resetSimulation s). intros p Ht Hrep Hsel Hlog Hexec.
  rewrite <- Ht in Hnd.
  split; [exact Ht|]. split.
  - intros scenario difficulty targets Hin. rewrite <- Ht in Hin.
    destruct (@fire_start_timeout p id d scenario difficulty targets r1 r2 Hnd Hin)
      as (s' & F & A).
    exists s'. split; [exact (Hexec s' F) | exact A].
  - intros Hin. rewrite <- Ht in Hin.
    destruct (@fire_completion_timeout p id d r1 r2 Hnd Hin) as (s' & F & A & B & C).
    exists s'. eexists. split; [exact (Hexec s' F)|].
    rewrite A, B, C, Hrep, Hlog. repeat split.
Qed.

Lemma loading_again_page_reachable : reachable loading_again_page.
Proof.
  exists (ToggleTarget "endpoints" :: ransomware_schedule ++ [ClickStart]).
  vm_compute. reflexivity.
Qed.

Lemma X8_reset_cancels_no_timer_witness :
  exists s',
    exec [ClickReset; Fire 10 0 0] loading_again_page = Some s' /\
    simulationRunning s' = true /\ start_label s' = PauseSimulationLabel /\
    In (IntervalTick (getScenarioEvents "ransomware") 0 0) (map callback (timers s')).
Proof.
  apply (proj1 (proj2 (@X8_reset_cancels_no_timer loading_again_page 10 1500 0 0
                         loading_again_page_reachable eq_refl))
           "ransomware" "medium" ["endpoints"]).
  vm_compute. right. right. right. now left.
Defined.

(** ** The network under scenario mutations and resets *)

Section NetworkFacts.

Lemma resolve_some es refs :
  forallb (fun r => Nat.ltb (er_index r) (length es)) refs = true ->
  exists ps, resolve es refs = Some ps.
Proof.
  induction refs as [|r refs IH]; cbn; [eauto|].
  intros H. apply andb_true_iff in H. destruct H as [Hr Hrest].
  apply Nat.ltb_lt in Hr. destruct (IH Hrest) as [ps ->].
  destruct (nth_error es (er_index r)) as [e|] eqn:E; [eauto|].
  apply nth_error_None in E. lia.
Qed.

Lemma exec_statement_some st g :
  statement_ok st = true -> graph_inv g -> exists g', exec_statement st g = Some g'.
Proof.
  intros Hok [_ He]. destruct st as [ps|refs]; cbn; [eauto|].
  assert (Hlen : length (edges g) = length initial_edges).
  { apply (f_equal (@length _)) in He. now rewrite !length_map in He. }
  unfold statement_ok in Hok. rewrite <- Hlen in Hok.
  destruct (resolve_some _ _ Hok) as [ps ->]. eauto.
Qed.

Lemma body_completes_ok body g :
  forallb statement_ok body = true -> graph_inv g -> body_completes body g = true.
Proof.
  revert g. induction body as [|st body IH]; intros g Hok Hg; [reflexivity|].
  cbn [forallb] in Hok. apply andb_true_iff in Hok. destruct Hok as [Hst Hrest].
  cbn [body_completes]. destruct (exec_statement_some st Hst Hg) as [g' E]. rewrite E.
  apply IH; [exact Hrest|]. eapply exec_statement_inv; eassumption.
Qed.

Lemma resetNetwork_idempotent g :
  graph_inv g -> resetNetwork (resetNetwork g) = resetNetwork g.
Proof.
  destruct g as [ns es]. intros [Hn He]. cbn [nodes edges] in Hn, He.
  do 8 (destruct ns as [|[? ? ? ? ?] ns]; [cbn in Hn; discriminate Hn|]).
  destruct ns; [|cbn in Hn; discriminate Hn].
  cbn in Hn. injection Hn as -> -> -> -> -> -> -> -> -> -> -> -> -> -> -> ->
                           -> -> -> -> -> -> -> -> -> -> -> -> -> -> -> ->.
  do 8 (destruct es as [|[? ? ? ? ? ?] es]; [cbn in He; discriminate He|]).
  destruct es; [|cbn in He; discriminate He].
  cbn in He. injection He as -> -> -> -> -> -> -> -> -> -> -> -> -> -> -> ->
                           -> -> -> -> -> -> -> ->.
  vm_compute. reflexivity.
Qed.

Lemma resetSimulation_with_network s g :
  networkInstance s = Some g ->
  resetSimulation s
  = showToast "Simulation reset successfully." "Simulation" "success"
      (set_networkInstance (Some (resetNetwork g))
         (resetSimulationLogs
            (set_reset_disabled true
               (set_start_disabled false
                  (set_start_label StartSimulationLabel
                     (set_simulationRunning false s)))))).
Proof.
  intros Hnet. unfold resetSimulation, resetNetworkVisualization.
  cbn [networkInstance resetSimulationLogs set_event_counter set_defense_tbody
       set_simulation_log set_reset_disabled set_start_disabled set_start_label
       set_simulationRunning].
  rewrite Hnet. reflexivity.
Qed.

End NetworkFacts.

(** X9. On every reachable page with a network, the network has the
    eight nodes and eight edges of the initial network, with their ids,
    labels, shapes, icons and end points: no scenario mutation and no reset
    adds, removes or relabels one.  And the callback of every pending
    timeout of the network visualization runs to its end on it: no
    [edges.get()[k]] lookup is out of range. *)
Theorem X9_network_structure_invariant (s : Page) (g : Network) :
  reachable s -> networkInstance s = Some g ->
  map node_key (nodes g) = map node_key initial_nodes /\
  map edge_key (edges g) = map edge_key initial_edges /\
  forall t body, In t (timers s) -> callback t = GraphTimeout body ->
                 body_completes body g = true.
Proof.
  intros Hr Hnet. pose proof (reachable_inv Hr) as [_ T G _].
  pose proof (G g Hnet) as Hg. destruct Hg as [Hn He].
  split; [exact Hn|]. split; [exact He|].
  intros t body Hin Cb. rewrite forallb_forall in T. specialize (T t Hin).
  unfold timer_ok in T. rewrite Cb in T. cbn in T.
  apply body_completes_ok; [exact T | now split].
Qed.

Lemma X9_network_structure_invariant_witness :
  exists g,
    networkInstance paused_page = Some g /\
    map node_key (nodes g) = map node_key initial_nodes /\
    map edge_key (edges g) = map edge_key initial_edges /\
    forall t body, In t (timers paused_page) -> callback t = GraphTimeout body ->
                   body_completes body g = true.
Proof.
  destruct (networkInstance paused_page) as [g|] eqn:E.
  - exists g. split; [reflexivity|].
    exact (@X9_network_structure_invariant paused_page g paused_page_reachable E).
  - vm_compute in E. discriminate E.
Defined.

(** X10. Resetting twice is resetting once: on every reachable page with
    a network, [resetNetworkVisualization] applied to an already reset
    network changes nothing, and a second [resetSimulation] leaves the page
    of the first one, but for the toast it shows again. *)
Theorem X10_reset_idempotent (s : Page) (g : Network) :
  reachable s -> networkInstance s = Some g ->
  resetNetwork (resetNetwork g) = resetNetwork g /\
  without_toasts (resetSimulation (resetSimulation s)) = without_toasts (resetSimulation s).
Proof.
  intros Hr Hnet.
  assert (Hg : graph_inv g) by (apply (pi_graph (reachable_inv Hr)); exact Hnet).
  pose proof (resetNetwork_idempotent Hg) as Hidem.
  split; [exact Hidem|].
  rewrite (resetSimulation_with_network s Hnet).
  match goal with
  | |- without_toasts (resetSimulation ?p) = _ =>
      rewrite (@resetSimulation_with_network p (resetNetwork g) eq_refl)
  end.
  rewrite Hidem. generalize (resetNetwork g). intros g1.
  destruct s. vm_compute. reflexivity.
Qed.

Lemma X10_reset_idempotent_witness :
  exists g,
    networkInstance paused_page = Some g /\
    resetNetwork (resetNetwork g) = resetNetwork g /\
    without_toasts (resetSimulation (resetSimulation paused_page))
    = without_toasts (resetSimulation paused_page).
Proof.
  destruct (networkInstance paused_page) as [g|] eqn:E.
  - exists g. split; [reflexivity|].
    exact (@X10_reset_idempotent paused_page g paused_page_reachable E).
  - vm_compute in E. discriminate E.
Defined.

(** ** Selections made during a run *)

Section PassiveActions.

Lemma run_inv_passive scenario events shown ph s a s' :
  is_passive a = true ->
  run_inv scenario events shown ph s -> step a s = Some s' ->
  exists ph', run_inv scenario events shown ph' s' /\
              delivered events ph <= delivered events ph'.
Proof.
  intros Ha H. destruct a as [o | v | v | | | view | id r1 r2]; try discriminate Ha;
    cbn [step].
  - intros [= <-]. exists ph. split; [|lia]. revert H. apply run_inv_frame; reflexivity.
  - intros [= <-]. exists ph. split; [|lia]. revert H. apply run_inv_frame; reflexivity.
  - intros [= <-]. exists ph. split; [|lia]. revert H. apply run_inv_frame; reflexivity.
  - intros [= <-]. exists ph. split; [|lia]. unfold toggleVisualizationView.
    destruct (String.eqb view "tree"); [|exact H].
    revert H. apply run_inv_frame; reflexivity.
  - intros F. destruct (@run_inv_fire _ _ _ _ _ _ _ _ _ H F) as (ph' & H' & _ & D & _).
    exists ph'. now split.
Qed.

Lemma run_inv_passive_exec scenario events shown acts :
  forall ph s s',
    forallb is_passive acts = true ->
    run_inv scenario events shown ph s -> exec acts s = Some s' ->
    exists ph', run_inv scenario events shown ph' s'.
Proof.
  induction acts as [|a acts IH]; intros ph s s' Hp H; cbn [exec].
  - intros [= <-]. eauto.
  - cbn [forallb] in Hp. apply andb_true_iff in Hp. destruct Hp as [Ha Hp].
    destruct (step a s) as [s1|] eqn:E; [|discriminate].
    destruct (@run_inv_passive _ _ _ _ _ _ _ Ha H E) as (ph1 & H1 & _).
    apply (IH ph1 s1 s' Hp H1).
Qed.

End PassiveActions.

(** X11. When Start is clicked on a reachable page that is not running,
    whose start button is enabled and on which no start timeout, delivery
    interval or completion timeout of an earlier run is pending (a fresh
    page, or one whose runs have all completed; not a page reset or paused
    in the middle of a run, where the old interval is still pending), the
    script of the run is fixed at the click.  Whatever the user selects in
    the scenario, difficulty and target selects or clicks among the view
    toggles while the timers fire, the event log is a prefix of the script
    of the scenario that was selected at the click, the whole of it once no
    timer of the run is pending, and exactly one report has then been
    shown. *)
Theorem X11_selection_during_run_is_ignored (q s : Page) (acts : list Action) :
  reachable q -> idle q -> selected_values (target_select q) <> [] ->
  forallb is_passive acts = true ->
  exec (ClickStart :: acts) q = Some s ->
  event_log s
  = map log_item (firstn (event_counter s) (getScenarioEvents (value (scenario_select q)))) /\
  (run_timers s = [] ->
   event_log s = map log_item (getScenarioEvents (value (scenario_select q))) /\
   exists rep, reports s = reports q ++ [rep]).
Proof.
  intros Hr Hi Hsel Hp Hex.
  destruct (click_start_opens_run Hr Hi Hsel) as [Hstep H0].
  cbn [exec] in Hex. rewrite Hstep in Hex.
  destruct (@run_inv_passive_exec _ _ _ acts _ _ _ Hp H0 Hex) as (ph & H).
  destruct (run_inv_event_log H) as (Hc & _ & _ & Hlog).
  split; [exact Hlog|].
  intros Hq. pose proof (run_inv_settled H Hq) as ->.
  destruct (run_inv_completed H) as (_ & Hfull & _ & _ & Hrep).
  split; [|exact Hrep].
  unfold event_log. rewrite Hfull. apply event_items_of_script.
Qed.

Lemma X11_selection_during_run_is_ignored_witness :
  event_log (after [ClickStart; Fire 1 0 0; Fire 2 0 0;
                    ChangeScenario (mkOption "ddos" "DDoS Attack"); Fire 2 0 0]
                   endpoints_page)
  = map log_item
      (firstn (event_counter
                 (after [ClickStart; Fire 1 0 0; Fire 2 0 0;
                         ChangeScenario (mkOption "ddos" "DDoS Attack"); Fire 2 0 0]
                        endpoints_page))
              (getScenarioEvents (value (scenario_select endpoints_page)))).
Proof.
  apply (@X11_selection_during_run_is_ignored endpoints_page
           (after [ClickStart; Fire 1 0 0; Fire 2 0 0;
                   ChangeScenario (mkOption "ddos" "DDoS Attack"); Fire 2 0 0]
                  endpoints_page)
           [Fire 1 0 0; Fire 2 0 0; ChangeScenario (mkOption "ddos" "DDoS Attack");
            Fire 2 0 0]).
  - exact endpoints_page_reachable.
  - exact endpoints_page_idle.
  - intros H. vm_compute in H. discriminate H.
  - reflexivity.
  - vm_compute. reflexivity.
Defined.

(** ** Placeholders and the life of the network instance *)

Section StepEffects.

Lemma log_ok_snoc l e : log_ok l = true -> log_ok (l ++ [log_item e]) = true.
Proof.
  destruct l as [|[|t c u m] items]; try discriminate. cbn.
  intros H. now rewrite forallb_app, H.
Qed.

Lemma arm_transitions_fields steps p :
  simulation_log (arm_transitions steps p) = simulation_log p /\
  networkInstance (arm_transitions steps p) = networkInstance p.
Proof. rewrite arm_transitions_eq. split; reflexivity. Qed.

Lemma addSimulationEvent_fields e n p :
  simulation_log (addSimulationEvent e n p) = simulation_log p ++ [log_item e] /\
  networkInstance (addSimulationEvent e n p) = networkInstance p.
Proof. unfold addSimulationEvent. destruct (recorded e); split; reflexivity. Qed.

(** What one action does to the log and to the network instance. *)
Lemma step_effects a s s' :
  step a s = Some s' ->
  (simulation_log s' = simulation_log s \/ simulation_log s' = [LogPlaceholder] \/
   exists e, simulation_log s' = simulation_log s ++ [log_item e]) /\
  (networkInstance s <> None -> networkInstance s' <> None).
Proof.
  destruct a as [o | v | v | | | view | id r1 r2]; cbn [step].
  - intros [= <-]. split; [now left | auto].
  - intros [= <-]. split; [now left | auto].
  - intros [= <-]. split; [now left | auto].
  - destruct (start_disabled s); [discriminate|]. intros [= <-].
    unfold startSimulation. destruct (simulationRunning s); [split; [now left | auto]|].
    destruct (selected_values (target_select s)); [split; [now left | auto]|].
    unfold initNetworkVisualization. cbn [networkInstance resetSimulationLogs
      set_event_counter set_defense_tbody set_simulation_log set_start_label
      set_start_disabled].
    destruct (networkInstance s) eqn:E; split; try (right; left; reflexivity).
    + cbn. now rewrite E.
    + cbn. discriminate.
  - destruct (reset_disabled s); [discriminate|]. intros [= <-].
    destruct (resetSimulation_fields s) as (_ & _ & _ & Hlog).
    split; [right; left; exact Hlog|].
    unfold resetSimulation, showToast, resetNetworkVisualization.
    cbn [networkInstance resetSimulationLogs set_event_counter set_defense_tbody
         set_simulation_log set_reset_disabled set_start_disabled set_start_label
         set_simulationRunning set_toasts].
    destruct (networkInstance s) eqn:E; [cbn; discriminate | contradiction].
  - intros [= <-]. unfold toggleVisualizationView.
    destruct (String.eqb view "tree"); split; try (now left); auto.
  - unfold fire. destruct (find _ (timers s)) as [t|]; [|discriminate].
    intros [= <-]. unfold run_callback, is_interval.
    destruct (callback t) as [sc df tg | evs n i | | body]; cbv beta iota.
    + unfold start_timeout, showToast, runSimulation, runSimulation_events,
        updateNetworkForScenario.
      cbn [networkInstance simulation_log setTimer set_next_timer set_timers
           set_simulationRunning set_reset_disabled set_start_disabled set_start_label
           set_toasts clearTimer].
      destruct (networkInstance s) eqn:E.
      * match goal with
        | |- context [arm_transitions ?st ?p] =>
            destruct (arm_transitions_fields st p) as [A B]
        end.
        cbn [simulation_log networkInstance set_toasts]. rewrite A, B. cbn.
        split; [now left | now rewrite E].
      * cbn. split; [now left | now rewrite E].
    + unfold interval_tick.
      destruct (simulationRunning s); cbn [negb]; [|split; [now left | auto]].
      destruct (nth_error evs i) as [e|].
      * destruct (addSimulationEvent_fields e n s) as [A B].
        cbn [simulation_log networkInstance set_callback set_timers set_event_counter].
        rewrite A, B. split; [right; right; now exists e | auto].
      * split; [now left | auto].
    + split; [now left | auto].
    + unfold graph_timeout. cbn [networkInstance clearTimer set_timers].
      destruct (networkInstance s) eqn:E; cbn; split; try (now left);
        try discriminate; auto.
Qed.

End StepEffects.

Lemma log_ok_exec acts :
  forall s s', log_ok (simulation_log s) = true -> exec acts s = Some s' ->
               log_ok (simulation_log s') = true.
Proof.
  induction acts as [|a acts IH]; intros s s' H; cbn [exec].
  - now intros [= <-].
  - destruct (step a s) as [s1|] eqn:E; [|discriminate].
    apply IH. destruct (step_effects _ _ E) as [[-> | [-> | [e ->]]] _];
      [exact H | reflexivity | now apply log_ok_snoc].
Qed.

Lemma network_kept_exec acts :
  forall s s', exec acts s = Some s' -> networkInstance s <> None ->
               networkInstance s' <> None.
Proof.
  induction acts as [|a acts IH]; intros s s'; cbn [exec].
  - now intros [= <-].
  - destruct (step a s) as [s1|] eqn:E; [|discriminate].
    intros Hex Hn. apply (IH s1 s' Hex). now apply (proj2 (step_effects _ _ E)).
Qed.

(** X12. On every reachable page the placeholder block of the event log is
    still the first child of the log, with only event items after it
    ([addSimulationEvent] never removes it), whereas the defense table
    either shows its placeholder row alone or has no placeholder row
    ([addDefenseAction] removes it with the first record). *)
Theorem X12_placeholders (s : Page) :
  reachable s ->
  (exists items, simulation_log s = LogPlaceholder :: items /\
                 forallb is_event_item items = true) /\
  (defense_tbody s = [RowPlaceholder] \/
   existsb is_placeholder_row (defense_tbody s) = false).
Proof.
  intros Hr. split.
  - destruct Hr as [acts H].
    pose proof (log_ok_exec acts initial_page eq_refl H) as Hok.
    destruct (simulation_log s) as [|[|t c u m] items]; try discriminate Hok.
    exists items. now split.
  - destruct (pi_ledger (reachable_inv Hr)) as (rows & Htb & Hrows).
    pose proof (ledger_rows_are_records Hrows) as Hrec. rewrite Htb.
    destruct rows as [|r rows]; [now left | right; exact Hrec].
Qed.

Lemma X12_placeholders_witness :
  (exists items, simulation_log paused_page = LogPlaceholder :: items /\
                 forallb is_event_item items = true) /\
  (defense_tbody paused_page = [RowPlaceholder] \/
   existsb is_placeholder_row (defense_tbody paused_page) = false).
Proof. exact (X12_placeholders paused_page_reachable). Defined.

(** X13. The network instance is created by the first accepted start and
    never replaced or dropped afterwards: an accepted [startSimulation]
    leaves the network it found, or the initial network if there was none,
    and once a page has a network every page reached from it by any actions
    has one. *)
Theorem X13_network_created_once (s s' : Page) (acts : list Action) :
  simulationRunning s = false -> selected_values (target_select s) <> [] ->
  exec acts (startSimulation s) = Some s' ->
  networkInstance (startSimulation s)
  = Some (match networkInstance s with
          | Some g => g
          | None => initial_network
          end) /\
  networkInstance s' <> None.
Proof.
  intros R Hsel Hex.
  assert (Hnet : networkInstance (startSimulation s)
                 = Some (match networkInstance s with
                         | Some g => g
                         | None => initial_network
                         end)).
  { rewrite (startSimulation_valid s R Hsel). unfold initNetworkVisualization.
    cbn [networkInstance setTimer set_next_timer set_timers resetSimulationLogs
         set_event_counter set_defense_tbody set_simulation_log set_start_label
         set_start_disabled].
    destruct (networkInstance s) eqn:E; cbn; [exact E | reflexivity]. }
  split; [exact Hnet|].
  apply (@network_kept_exec acts (startSimulation s) s' Hex). rewrite Hnet. discriminate.
Qed.

Lemma X13_network_created_once_witness :
  networkInstance (startSimulation endpoints_page)
  = Some (match networkInstance endpoints_page with
          | Some g => g
          | None => initial_network
          end) /\
  networkInstance (after [Fire 1 0 0; Fire 3 0 0; ClickReset] (startSimulation endpoints_page))
  <> None.
Proof.
  apply (@X13_network_created_once endpoints_page _ [Fire 1 0 0; Fire 3 0 0; ClickReset]).
  - reflexivity.
  - intros H. vm_compute in H. discriminate H.
  - vm_compute. reflexivity.
Defined.

(** ** A run started with no timer of an earlier run pending *)

(** X14. Start is clicked, with a target selected, on a reachable page
    that is not running, whose start button is enabled and on which no
    start timeout, delivery interval or completion timeout of an earlier
    run is pending; then timers fire, in any order, with no user action.
    Throughout, the event log is the first [event_counter] events of the
    script of the selected scenario, in script order; a firing appends
    nothing or exactly the next event of the script; there are at most
    [fuel] firings and at most one report.  From every page so reached
    some further firings complete the run, and whenever no timer of the run
    is pending the run has completed with the whole script in the log and
    exactly one report. *)
Theorem X14_clean_run_plays_script_once (q s : Page) (acts : list Action) :
  reachable q -> idle q -> selected_values (target_select q) <> [] ->
  forallb is_fire acts = true ->
  exec (ClickStart :: acts) q = Some s ->
  let script := getScenarioEvents (value (scenario_select q)) in
  event_counter s <= length script /\
  event_log s = map log_item (firstn (event_counter s) script) /\
  length acts <= fuel (startSimulation q) /\
  (reports s = reports q \/ exists rep, reports s = reports q ++ [rep]) /\
  (forall a s2, is_fire a = true -> step a s = Some s2 ->
     event_log s2 = event_log s \/
     exists e, nth_error script (event_counter s) = Some e /\
               event_log s2 = event_log s ++ [log_item e]) /\
  (run_timers s = [] ->
   completed s /\ event_log s = map log_item script /\
   exists rep, reports s = reports q ++ [rep]) /\
  (exists more s',
      forallb is_fire more = true /\ exec more s = Some s' /\
      completed s' /\ event_log s' = map log_item script /\
      exists rep, reports s' = reports q ++ [rep]).
Proof.
  intros Hr Hi Hsel Hf Hex script. subst script.
  destruct (click_start_opens_run Hr Hi Hsel) as [Hstep H0].
  cbn [exec] in Hex. rewrite Hstep in Hex.
  destruct (@run_inv_exec _ _ _ acts _ _ _ Hf H0 Hex) as (ph & H & F & _).
  destruct (run_inv_event_log H) as (Hc & Hle & _ & Hlog).
  destruct (run_completes H) as [(more & s' & Hf' & _ & Hex' & Hc' & Hrep') Hall].
  split; [exact Hle|]. split; [exact Hlog|]. split; [lia|].
  split; [exact (run_inv_reports H)|]. split; [|split].
  - intros a s2 Ha Hs2. destruct a as [| | | | | |id r1 r2]; try discriminate.
    cbn [step] in Hs2.
    destruct (@run_inv_fire _ _ _ _ _ _ _ _ _ H Hs2) as (ph2 & H2 & _ & D1 & D2).
    destruct (run_inv_event_log H2) as (Hc2 & Hle2 & _ & Hlog2).
    rewrite Hlog2, Hlog, Hc2, Hc.
    set (script := getScenarioEvents (value (scenario_select q))) in *.
    destruct (Nat.eq_dec (delivered script ph2) (delivered script ph)) as [E|E].
    + left. now rewrite E.
    + right. assert (E' : delivered script ph2 = S (delivered script ph)) by lia.
      rewrite E'.
      destruct (nth_error script (delivered script ph)) as [e|] eqn:N.
      * exists e. split; [reflexivity|].
        rewrite (@firstn_snoc _ script _ e N), map_app. reflexivity.
      * apply nth_error_None in N. lia.
  - intros Hq. destruct (Hall [] s eq_refl eq_refl) as (_ & _ & Hdone).
    destruct (Hdone Hq) as (A & B & _ & C).
    split; [exact A | split; [exact B | exact C]].
  - exists more, s'. split; [exact Hf'|]. split; [exact Hex'|].
    destruct (Hall more s' Hf' Hex') as (_ & _ & Hdone).
    assert (Hq : run_timers s' = []) by apply Hc'.
    destruct (Hdone Hq) as (A & B & _ & C).
    split; [exact A | split; [exact B | exact C]].
Qed.

Lemma X14_clean_run_plays_script_once_witness :
  let s := after [ClickStart; Fire 1 0 0; Fire 2 0 0; Fire 2 0 0] endpoints_page in
  let script := getScenarioEvents (value (scenario_select endpoints_page)) in
  event_counter s <= length script /\
  event_log s = map log_item (firstn (event_counter s) script) /\
  length [Fire 1 0 0; Fire 2 0 0; Fire 2 0 0] <= fuel (startSimulation endpoints_page) /\
  (reports s = reports endpoints_page \/
   exists rep, reports s = reports endpoints_page ++ [rep]) /\
  (forall a s2, is_fire a = true -> step a s = Some s2 ->
     event_log s2 = event_log s \/
     exists e, nth_error script (event_counter s) = Some e /\
               event_log s2 = event_log s ++ [log_item e]) /\
  (run_timers s = [] ->
   completed s /\ event_log s = map log_item script /\
   exists rep, reports s = reports endpoints_page ++ [rep]) /\
  (exists more s',
      forallb is_fire more = true /\ exec more s = Some s' /\
      completed s' /\ event_log s' = map log_item script /\
      exists rep, reports s' = reports endpoints_page ++ [rep]).
Proof.
  apply (@X14_clean_run_plays_script_once endpoints_page
           (after [ClickStart; Fire 1 0 0; Fire 2 0 0; Fire 2 0 0] endpoints_page)
           [Fire 1 0 0; Fire 2 0 0; Fire 2 0 0]).
  - exact endpoints_page_reachable.
  - exact endpoints_page_idle.
  - intros H. vm_compute in H. discriminate H.
  - reflexivity.
  - vm_compute. reflexivity.
Defined.

(** X15. [runSimulation] from the point where its script is bound, for
    any list of events, the empty one included, called on a page in the
    state the start timeout leaves just before the call (running, button
    reading Pause, empty log, table and counter, no timer of a run
    pending): some schedule of timer firings completes the run within
    [fuel] firings with the whole script in the log and one report, no
    schedule of firings is longer or shows more than one report, and
    whenever no timer of the run is pending the run has completed with
    exactly one report.  For the empty script the first tick of the
    interval finds [i >= events.length] and arms the completion timeout. *)
Theorem X15_runSimulation_completes_once
  (events : list Event) (scenario : string) (p : Page) :
  ready p ->
  let s0 := runSimulation_events events scenario p in
  (exists acts s,
      forallb is_fire acts = true /\ length acts <= fuel s0 /\
      exec acts s0 = Some s /\ completed s /\
      event_log s = map log_item events /\
      exists rep, reports s = reports p ++ [rep]) /\
  (forall acts s,
      forallb is_fire acts = true -> exec acts s0 = Some s ->
      length acts <= fuel s0 /\
      (reports s = reports p \/ exists rep, reports s = reports p ++ [rep]) /\
      (run_timers s = [] ->
       completed s /\ event_log s = map log_item events /\
       exists rep, reports s = reports p ++ [rep])).
Proof.
  intros Hp s0.
  assert (H : run_inv scenario events (reports p) (Playing 0) s0)
    by (apply run_inv_runSimulation_events, Hp).
  destruct (run_completes H) as [(acts & s & Hf & Hlen & Hex & Hc & Hrep) Hall].
  split.
  - exists acts, s.
    destruct (Hall acts s Hf Hex) as (_ & _ & Hdone).
    assert (Hq : run_timers s = []) by apply Hc.
    destruct (Hdone Hq) as (_ & B & _).
    split; [exact Hf|]. split; [exact Hlen|]. split; [exact Hex|].
    split; [exact Hc|]. split; [exact B | exact Hrep].
  - intros acts' s' Hf' Hex'. destruct (Hall acts' s' Hf' Hex') as (A & B & Hdone).
    split; [exact A|]. split; [exact B|].
    intros Hq. destruct (Hdone Hq) as (C1 & C2 & _ & C3).
    split; [exact C1 | split; [exact C2 | exact C3]].
Qed.

Lemma X15_runSimulation_completes_once_witness :
  let s0 := runSimulation_events [] "empty" ready_page in
  (exists acts s,
      forallb is_fire acts = true /\ length acts <= fuel s0 /\
      exec acts s0 = Some s /\ completed s /\
      event_log s = map log_item [] /\
      exists rep, reports s = reports ready_page ++ [rep]) /\
  (forall acts s,
      forallb is_fire acts = true -> exec acts s0 = Some s ->
      length acts <= fuel s0 /\
      (reports s = reports ready_page \/ exists rep, reports s = reports ready_page ++ [rep]) /\
      (run_timers s = [] ->
       completed s /\ event_log s = map log_item [] /\
       exists rep, reports s = reports ready_page ++ [rep])).
Proof.
  exact (@X15_runSimulation_completes_once [] "empty" ready_page ready_page_ready).
Defined.
